(** * Inicio.py: batch extraction of IVA bases from PDF invoices

    A shallow embedding of the orchestration code of [Inicio.py]: the
    extraction client ([pdf_to_base64], [extract_iva_from_pdf]), the batch
    runner ([process_all_invoices]), the two exporters (the [combined_text]
    report and [create_summary_table]) and the two button handlers of the
    Streamlit page.

    Python values are modelled as the script uses them:
    - [bytes] is [list byte], and a [str] is the [string] of its UTF-8
      bytes, with lengths and slices counted in characters;
    - a [dict] is an insertion-ordered association list with unique keys
      ([pydict]); subscripting a missing key is [None] here ([KeyError]
      there);
    - a call that may raise returns a [py_result];
    - the remote service and the wall clock are oracles threaded through an
      abstract external state; the file system is a finite map from path
      strings to contents;
    - calls into Streamlit are recorded, in program order, as a list of
      [event]s. *)

From Stdlib Require Import String Ascii List Arith NArith Lia Bool DecimalString.
From Stdlib.Strings Require Import Byte.
Import ListNotations.
Open Scope string_scope.
Open Scope nat_scope.
Open Scope list_scope.

(** String concatenation, Python's [+] on [str]. *)
Infix "+++" := String.append (at level 60, right associativity).

(** ** Strings *)

Definition nl : string := String (ascii_of_nat 10) EmptyString.

(** [s * n] for a string [s]. *)
Fixpoint str_repeat (s : string) (n : nat) : string :=
  match n with
  | O => EmptyString
  | S n' => s +++ str_repeat s n'
  end.

(** [str(n)] for a non-negative integer. *)
Definition str_of_nat (n : nat) : string :=
  NilEmpty.string_of_uint (Nat.to_uint n).

(** Two-digit, zero padded decimal: the [%m], [%d], [%H], [%M], [%S] fields
    of [strftime]. *)
Definition pad2 (n : nat) : string :=
  if n <? 10 then "0" +++ str_of_nat n else str_of_nat n.

(** [s.startswith(p)] and the rest of [s] after [p]. *)
Fixpoint strip_prefix (p s : string) : option string :=
  match p with
  | EmptyString => Some s
  | String a p' =>
      match s with
      | EmptyString => None
      | String b s' => if Ascii.eqb a b then strip_prefix p' s' else None
      end
  end.

Definition startswith (p s : string) : bool :=
  match strip_prefix p s with Some _ => true | None => false end.

(** [sub in s]. *)
Fixpoint contains (sub s : string) : bool :=
  startswith sub s ||
  match s with
  | EmptyString => false
  | String _ s' => contains sub s'
  end.

Fixpoint endswith (suffix s : string) : bool :=
  String.eqb suffix s ||
  match s with
  | EmptyString => false
  | String _ s' => endswith suffix s'
  end.

(** [s.lower()] on ASCII letters. *)
Definition lower_ascii (c : ascii) : ascii :=
  let n := nat_of_ascii c in
  if (65 <=? n) && (n <=? 90) then ascii_of_nat (n + 32) else c.

Fixpoint lower (s : string) : string :=
  match s with
  | EmptyString => EmptyString
  | String c s' => String (lower_ascii c) (lower s')
  end.

(** A [str] is held as its UTF-8 bytes.  A byte 10xxxxxx continues the
    character the bytes before it began. *)
Definition is_continuation (c : ascii) : bool :=
  let n := nat_of_ascii c in
  (128 <=? n) && (n <? 192).

(** [len(s)]: the number of characters (code points) of [s]. *)
Fixpoint str_len (s : string) : nat :=
  match s with
  | EmptyString => 0
  | String c s' =>
      if is_continuation c then str_len s' else S (str_len s')
  end.

(** [s[:n]]: the first [n] characters of [s]. *)
Fixpoint str_take (n : nat) (s : string) : string :=
  match s with
  | EmptyString => EmptyString
  | String c s' =>
      if is_continuation c then String c (str_take n s')
      else match n with
           | O => EmptyString
           | S n' => String c (str_take n' s')
           end
  end.

(** ** Python dictionaries *)

Section PyDict.
Context {V : Type}.

Definition pydict := list (string * V).

(** [d[k]]; [None] stands for [KeyError]. *)
Fixpoint dict_get (k : string) (d : pydict) : option V :=
  match d with
  | [] => None
  | (k', v) :: d' => if String.eqb k k' then Some v else dict_get k d'
  end.

(** [d[k] = v]: an existing key keeps its position, a new key goes last. *)
Fixpoint dict_set (k : string) (v : V) (d : pydict) : pydict :=
  match d with
  | [] => [(k, v)]
  | (k', v') :: d' =>
      if String.eqb k k' then (k', v) :: d' else (k', v') :: dict_set k v d'
  end.

Definition dict_keys (d : pydict) : list string := map fst d.
Definition dict_values (d : pydict) : list V := map snd d.
Definition dict_items (d : pydict) : list (string * V) := d.
Definition dict_len (d : pydict) : nat := length d.

(** [k in d]. *)
Definition dict_mem (k : string) (d : pydict) : bool :=
  match dict_get k d with Some _ => true | None => false end.

(** [del d[k]] for a key that may be absent. *)
Fixpoint dict_del (k : string) (d : pydict) : pydict :=
  match d with
  | [] => []
  | (k', v) :: d' =>
      if String.eqb k k' then d' else (k', v) :: dict_del k d'
  end.
End PyDict.
Arguments pydict V : clear implicits.

(** ** Calls that may raise *)

(** The outcome of a call: the value it returns, or the message [str(e)] of
    the [Exception] it raises. *)
Inductive py_result (A : Type) : Type :=
| Returned (value : A)
| Raised (message : string).
Arguments Returned {A} value.
Arguments Raised {A} message.

(** ** Date and time *)

Record datetime : Type := {
  year : nat; month : nat; day : nat;
  hour : nat; minute : nat; second : nat
}.

(** [d.strftime("%Y-%m-%d %H:%M:%S")], for a year of four digits. *)
Definition strftime_timestamp (d : datetime) : string :=
  str_of_nat (year d) +++ "-" +++ pad2 (month d) +++ "-" +++ pad2 (day d)
  +++ " " +++ pad2 (hour d) +++ ":" +++ pad2 (minute d) +++ ":"
  +++ pad2 (second d).

(** [d.strftime('%Y%m%d_%H%M%S')]. *)
Definition strftime_compact (d : datetime) : string :=
  str_of_nat (year d) +++ pad2 (month d) +++ pad2 (day d) +++ "_"
  +++ pad2 (hour d) +++ pad2 (minute d) +++ pad2 (second d).

(** ** Paths and the file system *)

(** A [pathlib.Path] made of a directory and a file name in it. *)
Record Path : Type := { parent : string; name : string }.

(** [str(p)]. *)
Definition path_str (p : Path) : string := parent p +++ "/" +++ name p.

(** [Path(folder) / file_name], for a plain file name. *)
Definition path_div (folder file_name : string) : Path :=
  {| parent := folder; name := file_name |}.

(** The files on disk: path string to content. *)
Definition FS : Type := pydict (list byte).

(** The name of [path] when it is a direct child of [folder] that matches
    [*.pdf]. *)
Definition pdf_name_in (folder path : string) : option string :=
  match strip_prefix (folder +++ "/") path with
  | Some n =>
      if negb (contains "/" n) && endswith ".pdf" n then Some n else None
  | None => None
  end.

(** [list(Path(folder).glob("*.pdf"))] over the paths present on disk, in
    the order the file system lists them; the pattern is matched as POSIX
    does, letter case included. *)
Fixpoint glob_pdf (folder : string) (paths : list string) : list Path :=
  match paths with
  | [] => []
  | p :: ps =>
      match pdf_name_in folder p with
      | Some n => path_div folder n :: glob_pdf folder ps
      | None => glob_pdf folder ps
      end
  end.

(** ** base64 *)

Definition b64_alphabet : string :=
  "ABCDEFGHIJKLMNOPQRSTUVWXYZabcdefghijklmnopqrstuvwxyz0123456789+/".

Definition b64_digit (i : N) : string :=
  match String.get (N.to_nat (i mod 64)) b64_alphabet with
  | Some c => String c EmptyString
  | None => EmptyString
  end.

(** [base64.standard_b64encode(bs).decode("utf-8")]. *)
Fixpoint standard_b64encode (bs : list byte) : string :=
  match bs with
  | [] => EmptyString
  | [a] =>
      let n := (Byte.to_N a * 65536)%N in
      b64_digit (n / 262144) +++ b64_digit (n / 4096) +++ "=="
  | [a; b] =>
      let n := (Byte.to_N a * 65536 + Byte.to_N b * 256)%N in
      b64_digit (n / 262144) +++ b64_digit (n / 4096)
      +++ b64_digit (n / 64) +++ "="
  | a :: b :: c :: rest =>
      let n := (Byte.to_N a * 65536 + Byte.to_N b * 256 + Byte.to_N c)%N in
      b64_digit (n / 262144) +++ b64_digit (n / 4096)
      +++ b64_digit (n / 64) +++ b64_digit n +++ standard_b64encode rest
  end.

(** ** Constants of the script *)

Definition PDF_FOLDER : string := "facturas".

Definition PROMPT_EXTRACCION_IVA : string :=
  "Analiza esta factura y extrae ÚNICAMENTE las bases imponibles del IVA de manera global." +++ nl +++
  nl +++
  "Debes extraer la información en este formato exacto:" +++ nl +++
  nl +++
  "Tarifa                          Base Imponible     Impuesto Calculado      Total con Impuesto " +++ nl +++
  "IVA 19%                     $X,XXX.XX               $X,XXX.XX                      $X,XXX.XX" +++ nl +++
  "Excluidos (0%)     $X,XXX.XX             $X,XXX.XX                      $X,XXX.XX" +++ nl +++
  "TOTAL                        $X,XXX.XX             $X,XXX.XX                      $X,XXX.XX" +++ nl +++
  nl +++
  "IMPORTANTE:" +++ nl +++
  "- Busca las bases consolidadas/totales del IVA, no detalles línea por línea" +++ nl +++
  "- Si hay IVA 5%, inclúyelo también" +++ nl +++
  "- Usa el formato de moneda con separadores de miles y dos decimales" +++ nl +++
  "- Si no encuentras alguna tarifa, omítela" +++ nl +++
  "- Presenta SOLO la tabla, sin explicaciones adicionales".

(** ** The remote service *)

(** The arguments of [client.messages.create]: one user message with the
    document and the prompt. *)
Record request : Type := {
  req_model : string;
  req_max_tokens : nat;
  req_media_type : string;
  req_document_data : string;
  req_text : string
}.

(** What [client.messages.create] does: it returns a message whose
    [content] is a list of text blocks, or it raises. *)
Inductive api_reply : Type :=
| ApiMessage (content : list string)
| ApiError (message : string).

(** ** Events *)

(** The calls into Streamlit, and two program points of the batch runner
    ([ExtractCall], [DictInsert]), in the order the script reaches them. *)
Inductive event : Type :=
| ProgressNew (value : nat)
    (* progress_bar = st.progress(value) *)
| PlaceholderNew
    (* status_text = st.empty() *)
| StatusText (filename : string) (k n : nat)
    (* status_text.text(f"Procesando: {filename} ({k}/{n})") *)
| ExtractCall (pdf_path : string)
    (* extract_iva_from_pdf(pdf_path, api_key) is entered *)
| DictInsert (key : string)
    (* results[key] = {...} *)
| ProgressSet (num den : nat)
    (* progress_bar.progress(num / den) *)
| StatusClear
    (* status_text.empty() *)
| ProgressClear
    (* progress_bar.empty() *)
| StSuccess (body : string)
| StError (body : string)
| StCode (body : string).

(** The text shown by a [StatusText] event. *)
Definition status_line (filename : string) (k n : nat) : string :=
  "Procesando: " +++ filename +++ " (" +++ str_of_nat k +++ "/"
  +++ str_of_nat n +++ ")".

(** ** Outcome records and their consumers *)

(** A failing subscript aborts what follows, as a [KeyError] does. *)
Definition opt_bind {A B : Type} (c : option A) (k : A -> option B)
  : option B :=
  match c with
  | Some a => k a
  | None => None
  end.

Notation "x <- c ;; k" := (opt_bind c (fun x => k))
  (at level 61, c at next level, right associativity).

(** One outcome: the dict stored under a file name. *)
Definition outcome : Type := pydict string.

(** [{'status': 'success', 'data': result, 'timestamp': timestamp}]. *)
Definition success_record (result timestamp : string) : outcome :=
  dict_set "timestamp" timestamp
    (dict_set "data" result (dict_set "status" "success" [])).

(** [{'status': 'error', 'data': f"Error: {str(e)}", 'timestamp': timestamp}]. *)
Definition error_record (message timestamp : string) : outcome :=
  dict_set "timestamp" timestamp
    (dict_set "data" ("Error: " +++ message) (dict_set "status" "error" [])).

(** The record the runner stores for an extraction outcome. *)
Definition outcome_record (r : py_result string) (timestamp : string)
  : outcome :=
  match r with
  | Returned result => success_record result timestamp
  | Raised message => error_record message timestamp
  end.

(** The first two assignments to [combined_text]. *)
Definition report_header (processed_at : string) : string :=
  ("EXTRACCIÓN DE BASES DE IVA" +++ nl +++ "Fecha: " +++ processed_at
   +++ nl +++ nl)
  +++ (str_repeat "=" 80 +++ nl +++ nl).

(** The loop that appends one section per item to [combined_text]. *)
Fixpoint report_loop (items : list (string * outcome))
    (combined_text : string) : option string :=
  match items with
  | [] => Some combined_text
  | (filename, result) :: rest =>
      let text1 := combined_text +++ ("FACTURA: " +++ filename +++ nl) in
      status <- dict_get "status" result ;;
      let text2 := text1 +++ ("Estado: " +++ status +++ nl) in
      let text3 := text2 +++ (str_repeat "-" 80 +++ nl) in
      data <- dict_get "data" result ;;
      let text4 := text3 +++ (data +++ nl) in
      let text5 := text4 +++ (str_repeat "=" 80 +++ nl +++ nl) in
      report_loop rest text5
  end.

(** The text report of a run ([combined_text] when the loop ends). *)
Definition combined_text (results : pydict outcome) (processed_at : string)
  : option string :=
  report_loop (dict_items results) (report_header processed_at).

(** A [pandas.DataFrame]: column labels and rows of cells; a cell is [None]
    where a record lacks the column. *)
Record DataFrame : Type := {
  df_columns : list string;
  df_rows : list (list (option string))
}.

(** The column labels of [pd.DataFrame(records)]: the keys of the records in
    order of first appearance. *)
Fixpoint union_keys (seen : list string) (records : list (pydict string))
  : list string :=
  match records with
  | [] => seen
  | r :: rest =>
      union_keys
        (seen ++ filter (fun k => negb (existsb (String.eqb k) seen))
                   (dict_keys r))
        rest
  end.

(** [pd.DataFrame(records)] for a list of dicts. *)
Definition DataFrame_of_records (records : list (pydict string))
  : DataFrame :=
  let columns := union_keys [] records in
  {| df_columns := columns;
     df_rows := map (fun r => map (fun c => dict_get c r) columns) records |}.

(** The row appended to [summary] for one item. *)
Definition summary_row (filename status timestamp data : string)
  : pydict string :=
  dict_set "Resultado" data
    (dict_set "Fecha Procesamiento" timestamp
       (dict_set "Estado" status (dict_set "Factura" filename []))).

(** The loop of [create_summary_table]. *)
Fixpoint summary_loop (items : list (string * outcome))
    (summary : list (pydict string)) : option (list (pydict string)) :=
  match items with
  | [] => Some summary
  | (filename, result) :: rest =>
      status <- dict_get "status" result ;;
      timestamp <- dict_get "timestamp" result ;;
      data <- dict_get "data" result ;;
      summary_loop rest (summary ++ [summary_row filename status timestamp data])
  end.

Definition create_summary_table (results : pydict outcome)
  : option DataFrame :=
  summary <- summary_loop (dict_items results) [] ;;
  Some (DataFrame_of_records summary).

(** What one result tab shows. *)
Record tab_view : Type := {
  tab_label : string;      (* the label passed to st.tabs *)
  tab_text : string;       (* st.text(filename) *)
  tab_badge : event;       (* st.success or st.error *)
  tab_code : string;       (* st.code(result['data']) *)
  tab_caption : string     (* st.caption(...) *)
}.

(** The label of a tab: a name of more than 30 characters is cut to its
    first 30, counted as Python counts them, in code points. *)
Definition tab_label_of (name : string) : string :=
  if 30 <? str_len name
  then "📄 " +++ str_take 30 name +++ "..."
  else "📄 " +++ name.

(** The loop over [zip(tabs, results.items())]. *)
Fixpoint tabs_loop (pairs : list (string * (string * outcome)))
  : option (list tab_view) :=
  match pairs with
  | [] => Some []
  | (tab, (filename, result)) :: rest =>
      status <- dict_get "status" result ;;
      let badge :=
        if String.eqb status "success"
        then StSuccess "✅ Éxito" else StError "❌ Error" in
      data <- dict_get "data" result ;;
      timestamp <- dict_get "timestamp" result ;;
      views <- tabs_loop rest ;;
      Some ({| tab_label := tab; tab_text := filename; tab_badge := badge;
               tab_code := data;
               tab_caption := "Procesado: " +++ timestamp |} :: views)
  end.

Definition render_tabs (results : pydict outcome) : option (list tab_view) :=
  let tabs := map tab_label_of (dict_keys results) in
  tabs_loop (combine tabs (dict_items results)).

(** ** The extraction client, the batch runner and the page *)

(** What a download button is given. *)
Record download (A : Type) : Type := {
  dl_label : string;
  dl_data : A;
  dl_file_name : string;
  dl_mime : string
}.
Arguments dl_label {A} d.
Arguments dl_data {A} d.
Arguments dl_file_name {A} d.
Arguments dl_mime {A} d.

(** What the "Exportar" column draws. *)
Record export_view : Type := {
  ex_txt : option (download string);
  ex_xlsx : option (download (string * DataFrame));
  ex_raised : bool
}.

(** What handling an upload leaves: the files on disk, what the extraction
    gave, the events and the external state. *)
Record upload_done (Ext : Type) : Type := {
  up_fs : FS;
  up_result : py_result string;
  up_events : list event;
  up_ext : Ext
}.
Arguments up_fs {Ext} u.
Arguments up_result {Ext} u.
Arguments up_events {Ext} u.
Arguments up_ext {Ext} u.

(** The entries of [st.session_state] the script uses; [None] is an absent
    key. *)
Record session_state : Type := {
  ss_api_key : option string;
  ss_results : option (pydict outcome);
  ss_processed_at : option string
}.

(** The message of the [FileNotFoundError] raised by [open]. *)
Definition no_such_file (pdf_path : string) : string :=
  "[Errno 2] No such file or directory: '" +++ pdf_path +++ "'".

(** The hint shown after an error whose message looks like a rejected key. *)
Definition auth_hint (message : string) : list event :=
  if contains "invalid x-api-key" (lower message)
     || contains "authentication" (lower message)
  then [StError "🔑 API Key inválida. Verifica tu clave en el panel lateral."]
  else [].

Section Page.
(** The state of what lies outside the program: the remote service and
    the clock. *)
Variable Ext : Type.
(** [anthropic.Anthropic(api_key=api_key).messages.create(...)]. *)
Variable messages_create : string -> request -> Ext -> api_reply * Ext.
(** [datetime.now()]. *)
Variable datetime_now : Ext -> datetime * Ext.

Definition pdf_to_base64 (fs : FS) (pdf_path : string)
  : py_result string :=
  match dict_get pdf_path fs with
  | Some content => Returned (standard_b64encode content)
  | None => Raised (no_such_file pdf_path)
  end.

Definition extract_iva_from_pdf (pdf_path api_key : string) (fs : FS)
    (e : Ext) : py_result string * Ext :=
  match pdf_to_base64 fs pdf_path with
  | Raised message => (Raised message, e)
  | Returned pdf_data =>
      let message :=
        messages_create api_key
          {| req_model := "claude-sonnet-4-20250514";
             req_max_tokens := 2000;
             req_media_type := "application/pdf";
             req_document_data := pdf_data;
             req_text := PROMPT_EXTRACCION_IVA |} e in
      match message with
      | (ApiError err, e') => (Raised err, e')
      | (ApiMessage [], e') => (Raised "list index out of range", e')
      | (ApiMessage (block :: _), e') => (Returned block, e')
      end
  end.

(** The [for] loop of [process_all_invoices], from index [idx] on; it
    returns [results], the events of the iterations and the external
    state. *)
Fixpoint invoice_loop (api_key : string) (fs : FS) (total idx : nat)
    (pdf_files : list Path) (results : pydict outcome) (e : Ext)
  : pydict outcome * list event * Ext :=
  match pdf_files with
  | [] => (results, [], e)
  | pdf_path :: rest =>
      let '(r, e1) :=
        extract_iva_from_pdf (path_str pdf_path) api_key fs e in
      let '(now, e2) := datetime_now e1 in
      let results' :=
        dict_set (name pdf_path)
          (outcome_record r (strftime_timestamp now)) results in
      let '(final, events, e3) :=
        invoice_loop api_key fs total (S idx) rest results' e2 in
      (final,
       [StatusText (name pdf_path) (idx + 1) total;
        ExtractCall (path_str pdf_path);
        DictInsert (name pdf_path);
        ProgressSet (idx + 1) total] ++ events,
       e3)
  end.

(** The loop once more, statement by statement, keeping beside every event
    the mapping as it is when the script reaches that statement. *)
Record watch_state : Type := {
  w_results : pydict outcome;
  w_seen : list (event * pydict outcome);
  w_ext : Ext
}.

(** An event is seen with the mapping of the moment. *)
Definition emit (ev : event) (s : watch_state) : watch_state :=
  {| w_results := w_results s;
     w_seen := w_seen s ++ [(ev, w_results s)];
     w_ext := w_ext s |}.

(** One iteration of the loop: the status line, the extraction, the clock,
    the assignment to [results], the progress bar. *)
Definition watched_iteration (api_key : string) (fs : FS) (total idx : nat)
    (pdf_path : Path) (s : watch_state) : watch_state :=
  let s1 := emit (StatusText (name pdf_path) (idx + 1) total) s in
  let s2 := emit (ExtractCall (path_str pdf_path)) s1 in
  let '(r, e1) :=
    extract_iva_from_pdf (path_str pdf_path) api_key fs (w_ext s2) in
  let '(now, e2) := datetime_now e1 in
  let s3 :=
    {| w_results :=
         dict_set (name pdf_path)
           (outcome_record r (strftime_timestamp now)) (w_results s2);
       w_seen := w_seen s2;
       w_ext := e2 |} in
  let s4 := emit (DictInsert (name pdf_path)) s3 in
  emit (ProgressSet (idx + 1) total) s4.

Fixpoint watched_loop (api_key : string) (fs : FS) (total idx : nat)
    (pdf_files : list Path) (s : watch_state) : watch_state :=
  match pdf_files with
  | [] => s
  | pdf_path :: rest =>
      watched_loop api_key fs total (S idx) rest
        (watched_iteration api_key fs total idx pdf_path s)
  end.

(** [process_all_invoices(folder_path, api_key)]; the first component is
    the value returned, [None] for Python's [None]. *)
Definition process_all_invoices (folder_path api_key : string) (fs : FS)
    (e : Ext) : option (pydict outcome) * list event * Ext :=
  let pdf_files := glob_pdf folder_path (dict_keys fs) in
  match pdf_files with
  | [] => (None, [], e)
  | _ :: _ =>
      let '(results, events, e') :=
        invoice_loop api_key fs (length pdf_files) 0 pdf_files [] e in
      (Some results,
       [ProgressNew 0; PlaceholderNew] ++ events
       ++ [StatusClear; ProgressClear],
       e')
  end.

(** The handler of the button "Procesar todas las facturas". *)
Definition on_process_click (ss : session_state) (fs : FS) (e : Ext)
  : session_state * list event * Ext :=
  match ss_api_key ss with
  | None => (ss, [], e)
  | Some api_key =>
      match glob_pdf PDF_FOLDER (dict_keys fs) with
      | [] => (ss, [StError "❌ No hay facturas en la carpeta"], e)
      | _ :: _ =>
          let '(ret, events, e1) :=
            process_all_invoices PDF_FOLDER api_key fs e in
          match ret with
          | None =>
              (* len(None) raises TypeError, caught by the handler *)
              let message := "object of type 'NoneType' has no len()" in
              (ss,
               events
               ++ [StError ("❌ Error en el procesamiento: " +++ message)]
               ++ auth_hint message,
               e1)
          | Some results =>
              let '(now, e2) := datetime_now e1 in
              ({| ss_api_key := ss_api_key ss;
                  ss_results := Some results;
                  ss_processed_at := Some (strftime_timestamp now) |},
               events
               ++ [StSuccess ("✅ Procesamiento completado: "
                              +++ str_of_nat (dict_len results)
                              +++ " facturas")],
               e2)
          end
      end
  end.

(** The "Exportar" column.  It offers nothing when the session holds no
    results; a [KeyError] stops the script where it is raised, after the
    buttons already drawn. *)
Definition export_column (ss : session_state) (e : Ext)
  : export_view * Ext :=
  match ss_results ss with
  | None => ({| ex_txt := None; ex_xlsx := None; ex_raised := false |}, e)
  | Some results =>
      match (processed_at <- ss_processed_at ss ;;
             combined_text results processed_at) with
      | None => ({| ex_txt := None; ex_xlsx := None; ex_raised := true |}, e)
      | Some text =>
          let '(now1, e1) := datetime_now e in
          let txt :=
            {| dl_label := "📄 Descargar TXT";
               dl_data := text;
               dl_file_name :=
                 "bases_iva_" +++ strftime_compact now1 +++ ".txt";
               dl_mime := "text/plain" |} in
          match create_summary_table results with
          | None =>
              ({| ex_txt := Some txt; ex_xlsx := None; ex_raised := true |},
               e1)
          | Some df_summary =>
              let '(now2, e2) := datetime_now e1 in
              let xlsx :=
                {| dl_label := "📊 Descargar Excel";
                   dl_data := ("Resumen", df_summary);
                   dl_file_name :=
                     "bases_iva_" +++ strftime_compact now2 +++ ".xlsx";
                   dl_mime :=
                     "application/vnd.openxmlformats-officedocument.spreadsheetml.sheet" |} in
              ({| ex_txt := Some txt; ex_xlsx := Some xlsx;
                  ex_raised := false |}, e2)
          end
      end
  end.

(** The handler of the button "Procesar factura cargada", for an uploaded
    file called [file_name] with content [buffer]; the button exists when a
    key is configured, and [api_key] is [st.session_state['api_key']].
    The write is modelled for a plain file name, for which [open] finds the
    folder; where the new file comes in the listing of the folder is the
    file system's affair, and no property relies on it. *)
Definition on_upload_click (api_key file_name : string)
    (buffer : list byte) (fs : FS) (e : Ext) : upload_done Ext :=
  let temp_path := path_div PDF_FOLDER file_name in
  let fs' := dict_set (path_str temp_path) buffer fs in
  let '(r, e') := extract_iva_from_pdf (path_str temp_path) api_key fs' e in
  match r with
  | Returned result =>
      {| up_fs := fs'; up_result := r;
         up_events := [StSuccess "✅ Extracción completada"; StCode result];
         up_ext := e' |}
  | Raised message =>
      {| up_fs := fs'; up_result := r;
         up_events :=
           [StError ("❌ Error: " +++ message)] ++ auth_hint message;
         up_ext := e' |}
  end.

(** The attempts of a run, item by item: the file, what its extraction
    gave and the time stamp taken after it.  This is the loop of
    [process_all_invoices] without its dictionary and its events. *)
Fixpoint attempts (api_key : string) (fs : FS) (pdf_files : list Path)
    (e : Ext) : list (Path * py_result string * string) :=
  match pdf_files with
  | [] => []
  | pdf_path :: rest =>
      let '(r, e1) :=
        extract_iva_from_pdf (path_str pdf_path) api_key fs e in
      let '(now, e2) := datetime_now e1 in
      (pdf_path, r, strftime_timestamp now) :: attempts api_key fs rest e2
  end.
End Page.

Arguments pdf_to_base64 fs pdf_path : assert.
Arguments extract_iva_from_pdf {Ext} messages_create pdf_path api_key fs e.
Arguments invoice_loop {Ext} messages_create datetime_now
  api_key fs total idx pdf_files results e.
Arguments process_all_invoices {Ext} messages_create datetime_now
  folder_path api_key fs e.
Arguments on_process_click {Ext} messages_create datetime_now ss fs e.
Arguments export_column {Ext} datetime_now ss e.
Arguments on_upload_click {Ext} messages_create api_key file_name buffer fs e.
Arguments attempts {Ext} messages_create datetime_now api_key fs pdf_files e.
Arguments w_results {Ext} w.
Arguments w_seen {Ext} w.
Arguments w_ext {Ext} w.
Arguments emit {Ext} ev s.
Arguments watched_iteration {Ext} messages_create datetime_now
  api_key fs total idx pdf_path s.
Arguments watched_loop {Ext} messages_create datetime_now
  api_key fs total idx pdf_files s.

(** What an event may see of the mapping.  The status line of the file at
    position [k] sees the [k - 1] outcomes recorded before it and not yet
    the file's own; the assignment sees the file's outcome in the mapping;
    the progress bar at [k] sees [k] outcomes. *)
Definition seen_in_order (seen : event * pydict outcome) : Prop :=
  match fst seen with
  | StatusText filename k _ =>
      S (dict_len (snd seen)) = k /\ dict_get filename (snd seen) = None
  | DictInsert key => dict_mem key (snd seen) = true
  | ProgressSet num _ => dict_len (snd seen) = num
  | _ => True
  end.

(** The file a status line names has its outcome in [results]. *)
Definition notified_in (results : pydict outcome)
    (seen : event * pydict outcome) : Prop :=
  match fst seen with
  | StatusText filename _ _ => dict_mem filename results = true
  | _ => True
  end.

(** ** Reading a run *)

(** The three components of what a run gives. *)
Definition returned {A B C : Type} (run : A * B * C) : A := fst (fst run).
Definition emitted {A B C : Type} (run : A * B * C) : B := snd (fst run).
Definition ext_after {A B C : Type} (run : A * B * C) : C := snd run.

(** The entry of the result mapping an attempt stands for. *)
Definition entry_of (a : Path * py_result string * string)
  : string * outcome :=
  let '(pdf_path, r, timestamp) := a in
  (name pdf_path, outcome_record r timestamp).

(** The entries of a dictionary stored under [k]. *)
Definition entries_for {V : Type} (k : string) (d : pydict V)
  : list (string * V) :=
  filter (fun kv => String.eqb k (fst kv)) d.

(** The indices shown by the progress notifications, in order of emission. *)
Fixpoint status_indices (events : list event) : list nat :=
  match events with
  | [] => []
  | StatusText _ k _ :: rest => k :: status_indices rest
  | _ :: rest => status_indices rest
  end.

(** The paths the extraction was called on, in order. *)
Fixpoint extract_calls (events : list event) : list string :=
  match events with
  | [] => []
  | ExtractCall pdf_path :: rest => pdf_path :: extract_calls rest
  | _ :: rest => extract_calls rest
  end.

Definition is_status_or_insert (ev : event) : bool :=
  match ev with
  | StatusText _ _ _ | DictInsert _ => true
  | _ => false
  end.

(** The files with their positions, as [enumerate] gives them from [idx]. *)
Fixpoint enumerate_from {A : Type} (idx : nat) (l : list A)
  : list (nat * A) :=
  match l with
  | [] => []
  | x :: rest => (idx, x) :: enumerate_from (S idx) rest
  end.

(** The events of one iteration of the runner, for the file at a position. *)
Definition iteration_events (total : nat) (item : nat * Path) : list event :=
  [StatusText (name (snd item)) (fst item + 1) total;
   ExtractCall (path_str (snd item));
   DictInsert (name (snd item));
   ProgressSet (fst item + 1) total].

(** The three fields of an outcome record. *)
Definition outcome_fields : list string := ["status"; "data"; "timestamp"].

(** The columns of the summary table. *)
Definition summary_columns : list string :=
  ["Factura"; "Estado"; "Fecha Procesamiento"; "Resultado"].

(** One section of the text report. *)
Definition report_section (filename status data : string) : string :=
  ("FACTURA: " +++ filename +++ nl)
  +++ ("Estado: " +++ status +++ nl)
  +++ (str_repeat "-" 80 +++ nl)
  +++ (data +++ nl)
  +++ (str_repeat "=" 80 +++ nl +++ nl).

(** The concatenation of a list of strings. *)
Fixpoint str_concat (l : list string) : string :=
  match l with
  | [] => EmptyString
  | x :: rest => x +++ str_concat rest
  end.

(** The value of a field of a record, the empty string when it is absent. *)
Definition field (f : string) (r : outcome) : string :=
  match dict_get f r with
  | Some v => v
  | None => EmptyString
  end.

(** The section of the report for one item of the mapping. *)
Definition section_of (item : string * outcome) : string :=
  report_section (fst item) (field "status" (snd item))
    (field "data" (snd item)).

(** A record holds all of the given fields. *)
Definition has_fields (fields : list string) (r : outcome) : bool :=
  forallb (fun f => dict_mem f r) fields.

(** Two mappings have the same keys in the same order, and records that
    agree on the given fields. *)
Definition same_on (fields : list string) (d1 d2 : pydict outcome) : Prop :=
  Forall2
    (fun kv1 kv2 =>
       fst kv1 = fst kv2
       /\ forall f, In f fields -> dict_get f (snd kv1) = dict_get f (snd kv2))
    d1 d2.

(** The position of a label among the columns. *)
Fixpoint column_index (label : string) (columns : list string) : option nat :=
  match columns with
  | [] => None
  | c :: rest =>
      if String.eqb label c then Some 0
      else option_map S (column_index label rest)
  end.

(** The cell of a row under a column label. *)
Definition df_cell (df : DataFrame) (label : string)
    (row : list (option string)) : option string :=
  match column_index label (df_columns df) with
  | Some i => nth i row None
  | None => None
  end.

(** The cells of the row of the summary for one item of the mapping. *)
Definition summary_cells (item : string * outcome) : list (option string) :=
  [Some (fst item); Some (field "status" (snd item));
   Some (field "timestamp" (snd item)); Some (field "data" (snd item))].

(** The record stored under [key], the empty record when there is none. *)
Definition field_record (key : string) (results : pydict outcome) : outcome :=
  match dict_get key results with
  | Some r => r
  | None => []
  end.

(** [results] with [field] deleted from the record stored under [key]. *)
Definition without_field (field key : string) (results : pydict outcome)
  : pydict outcome :=
  map (fun kv =>
         if String.eqb key (fst kv)
         then (fst kv, dict_del field (snd kv)) else kv)
      results.

(** ** The rest of the page *)

(** The status and the payload the runner records for what an extraction
    gave. *)
Definition result_status (r : py_result string) : string :=
  match r with
  | Returned _ => "success"
  | Raised _ => "error"
  end.

Definition result_payload (r : py_result string) : string :=
  match r with
  | Returned result => result
  | Raised message => "Error: " +++ message
  end.


(** The request [extract_iva_from_pdf] sends for an encoded document. *)
Definition document_request (pdf_data : string) : request :=
  {| req_model := "claude-sonnet-4-20250514";
     req_max_tokens := 2000;
     req_media_type := "application/pdf";
     req_document_data := pdf_data;
     req_text := PROMPT_EXTRACCION_IVA |}.

(** The bytes of a file on disk, none when it is missing. *)
Definition file_content (fs : FS) (pdf_path : string) : list byte :=
  match dict_get pdf_path fs with
  | Some content => content
  | None => []
  end.

(** The values given to [progress_bar.progress], as numerator and
    denominator, in order. *)
Fixpoint progress_values (events : list event) : list (nat * nat) :=
  match events with
  | [] => []
  | ProgressSet num den :: rest => (num, den) :: progress_values rest
  | _ :: rest => progress_values rest
  end.

Definition is_error_event (ev : event) : bool :=
  match ev with
  | StError _ => true
  | _ => false
  end.

(** [sum(1 for r in values if r['status'] == 'success')], from the running
    total [total]. *)
Fixpoint count_success (values : list outcome) (total : nat) : option nat :=
  match values with
  | [] => Some total
  | r :: rest =>
      status <- dict_get "status" r ;;
      count_success rest
        (if String.eqb status "success" then total + 1 else total)
  end.

(** The two counters of the "Resultados" block. *)
Definition success_count (results : pydict outcome) : option nat :=
  count_success (dict_values results) 0.

Definition error_count (results : pydict outcome) : option nat :=
  successes <- success_count results ;;
  Some (dict_len results - successes).

(** The key field of the sidebar: a value typed in is stored in the session,
    an empty field stores [None].  The messages the sidebar shows are not
    recorded. *)
Definition sidebar_api_key (api_key_input : string) (ss : session_state)
  : session_state :=
  if String.eqb api_key_input ""
  then {| ss_api_key := None;
          ss_results := ss_results ss;
          ss_processed_at := ss_processed_at ss |}
  else {| ss_api_key := Some api_key_input;
          ss_results := ss_results ss;
          ss_processed_at := ss_processed_at ss |}.

(** [has_api_key]: the session holds a key and it is not empty. *)
Definition has_api_key (ss : session_state) : bool :=
  match ss_api_key ss with
  | Some api_key => negb (String.eqb api_key "")
  | None => false
  end.

(** The attempts that returned, and those that raised. *)
Definition is_returned (a : Path * py_result string * string) : bool :=
  match snd (fst a) with
  | Returned _ => true
  | Raised _ => false
  end.


(** The section of the report and the cells of the table row of an
    attempt. *)
Definition attempt_section (a : Path * py_result string * string) : string :=
  let '(pdf_path, r, timestamp) := a in
  report_section (name pdf_path) (result_status r) (result_payload r).

Definition attempt_cells (a : Path * py_result string * string)
  : list (option string) :=
  let '(pdf_path, r, timestamp) := a in
  [Some (name pdf_path); Some (result_status r); Some timestamp;
   Some (result_payload r)].

(** ** A journal of the calls to the outside *)

(** The calls the program makes to the remote service and to the clock. *)
Inductive ext_event : Type :=
| Requested (api_key : string) (req : request)
| ClockRead.

(** The journal entries of one extraction: a request when the file is on
    disk. *)
Definition extraction_journal (api_key : string) (fs : FS)
    (pdf_path : string) : list ext_event :=
  match dict_get pdf_path fs with
  | Some content =>
      [Requested api_key (document_request (standard_b64encode content))]
  | None => []
  end.

Section Journal.
Variable Ext : Type.
Variable messages_create : string -> request -> Ext -> api_reply * Ext.
Variable datetime_now : Ext -> datetime * Ext.

(** The same service and clock, writing every call into a journal kept
    beside the external state. *)
Definition logged_create (api_key : string) (req : request)
    (w : Ext * list ext_event) : api_reply * (Ext * list ext_event) :=
  let '(reply, e') := messages_create api_key req (fst w) in
  (reply, (e', snd w ++ [Requested api_key req])).

Definition logged_now (w : Ext * list ext_event)
  : datetime * (Ext * list ext_event) :=
  let '(now, e') := datetime_now (fst w) in
  (now, (e', snd w ++ [ClockRead])).

(** One run of the script in which the button "Procesar todas las facturas"
    is pressed: the sidebar stores the key field, and the button, disabled
    without a key, does nothing then. *)
Definition press_process_button (api_key_input : string)
    (ss : session_state) (fs : FS) (e : Ext)
  : session_state * list event * Ext :=
  let ss1 := sidebar_api_key api_key_input ss in
  if has_api_key ss1
  then on_process_click messages_create datetime_now ss1 fs e
  else (ss1, [], e).
End Journal.

Arguments logged_create {Ext} messages_create api_key req w.
Arguments logged_now {Ext} datetime_now w.
Arguments press_process_button {Ext} messages_create datetime_now
  api_key_input ss fs e.

(** ** A scripted outside world, for running the model *)

(** The replies the remote service will give, in order, and the seconds on
    the clock.  When the replies run out the service is unreachable. *)
Record script : Type := { replies : list api_reply; seconds : nat }.

Definition scripted_create (api_key : string) (req : request) (w : script)
  : api_reply * script :=
  match replies w with
  | [] => (ApiError "Connection error.", w)
  | r :: rest => (r, {| replies := rest; seconds := seconds w |})
  end.

Definition scripted_now (w : script) : datetime * script :=
  ({| year := 2025; month := 3; day := 14;
      hour := 9; minute := 26; second := seconds w mod 60 |},
   {| replies := replies w; seconds := S (seconds w) |}).

(** A folder with three invoices and a file that is not one. *)
Definition sample_fs : FS :=
  [ ("facturas/A.pdf", list_byte_of_string "%PDF-A");
    ("facturas/notas.txt", list_byte_of_string "pendientes");
    ("facturas/B.pdf", list_byte_of_string "%PDF-B");
    ("facturas/C.pdf", list_byte_of_string "%PDF-C") ].

(** A.pdf is answered, the call for B.pdf times out, C.pdf gets an empty
    message. *)
Definition mixed_world : script :=
  {| replies := [ApiMessage ["IVA 19% ... TOTAL ..."]; ApiError "timeout";
                 ApiMessage []];
     seconds := 58 |}.

(** Every call fails. *)
Definition offline_world : script := {| replies := []; seconds := 0 |}.

Definition sample_run : option (pydict outcome) * list event * script :=
  process_all_invoices scripted_create scripted_now
    "facturas" "sk-test" sample_fs mixed_world.

Definition sample_watched : watch_state script :=
  watched_loop scripted_create scripted_now "sk-test" sample_fs 3 0
    (glob_pdf "facturas" (dict_keys sample_fs))
    {| w_results := []; w_seen := []; w_ext := mixed_world |}.

Definition sample_results : pydict outcome :=
  match returned sample_run with
  | Some results => results
  | None => []
  end.

(** A service that rejects the key on every call. *)
Definition refusing_create (api_key : string) (req : request) (w : script)
  : api_reply * script :=
  (ApiError "authentication_error: invalid x-api-key", w).

Definition refused_run : option (pydict outcome) * list event * script :=
  process_all_invoices refusing_create scripted_now
    "facturas" "sk-wrong" sample_fs offline_world.

(** A service that answers every request. *)
Definition answering_create (api_key : string) (req : request) (w : script)
  : api_reply * script :=
  (ApiMessage ["TOTAL $119.00"; "and a second block"], w).

(** A folder without invoices. *)
Definition notes_fs : FS :=
  [ ("facturas/notas.txt", list_byte_of_string "pendientes");
    ("otras/Z.pdf", list_byte_of_string "%PDF-Z") ].

(** Two sessions that hold the same result set. *)
Definition sample_session : session_state :=
  {| ss_api_key := Some "sk-test";
     ss_results := Some sample_results;
     ss_processed_at := Some "2025-03-14 09:27:01" |}.

Definition later_session : session_state :=
  {| ss_api_key := None;
     ss_results := Some sample_results;
     ss_processed_at := Some "2025-03-14 09:27:01" |}.

(** * Properties *)

(** ** Strings *)

Lemma append_assoc (a b c : string) : (a +++ b) +++ c = a +++ (b +++ c).
Proof.
  induction a as [|x a IH]; simpl; [reflexivity | now rewrite IH].
Qed.

Lemma append_nil_r (a : string) : a +++ "" = a.
Proof.
  induction a as [|x a IH]; simpl; [reflexivity | now rewrite IH].
Qed.

Lemma append_eq_nil (a b : string) : a +++ b = "" -> a = "" /\ b = "".
Proof.
  destruct a; simpl; intros H; [now split | discriminate].
Qed.

Lemma strip_prefix_sound (p s r : string) :
  strip_prefix p s = Some r -> s = p +++ r.
Proof.
  revert s; induction p as [|a p IH]; intros s H; simpl in *.
  - now inversion H.
  - destruct s as [|b s]; [discriminate|].
    destruct (Ascii.eqb_spec a b) as [->|]; [|discriminate].
    now rewrite (IH _ H).
Qed.

Lemma strip_prefix_append (p r : string) : strip_prefix p (p +++ r) = Some r.
Proof.
  induction p as [|a p IH]; simpl; [reflexivity|].
  now rewrite Ascii.eqb_refl.
Qed.

Lemma pdf_name_in_sound (folder path n : string) :
  pdf_name_in folder path = Some n -> path = folder +++ "/" +++ n.
Proof.
  unfold pdf_name_in.
  destruct (strip_prefix (folder +++ "/") path) as [m|] eqn:E; [|discriminate].
  destruct (negb (contains "/" m) && endswith ".pdf" m); [|discriminate].
  intros H; inversion H; subst m.
  apply strip_prefix_sound in E. now rewrite E, append_assoc.
Qed.

Lemma pdf_name_in_complete (folder n : string) :
  contains "/" n = false -> endswith ".pdf" n = true ->
  pdf_name_in folder (folder +++ "/" +++ n) = Some n.
Proof.
  intros Hs He. unfold pdf_name_in.
  rewrite <- append_assoc, strip_prefix_append, Hs, He. reflexivity.
Qed.

(** ** Dictionaries *)

Section DictFacts.
Context {V : Type}.
Implicit Types (d : pydict V) (k : string) (v : V).

Lemma dict_set_fresh k v d :
  ~ In k (dict_keys d) -> dict_set k v d = d ++ [(k, v)].
Proof.
  induction d as [|[k' v'] d IH]; simpl; intros H; [reflexivity|].
  destruct (String.eqb_spec k k') as [->|_].
  - exfalso. apply H. now left.
  - rewrite IH; [reflexivity|]. intros I. apply H. now right.
Qed.

Lemma dict_keys_set k v d :
  dict_keys (dict_set k v d)
  = if dict_mem k d then dict_keys d else dict_keys d ++ [k].
Proof.
  unfold dict_mem.
  induction d as [|[k' v'] d IH]; simpl; [reflexivity|].
  destruct (String.eqb_spec k k') as [->|_]; simpl; [reflexivity|].
  rewrite IH. now destruct (dict_get k d).
Qed.

Lemma dict_get_set_same k v d : dict_get k (dict_set k v d) = Some v.
Proof.
  induction d as [|[k' v'] d IH]; simpl.
  - now rewrite String.eqb_refl.
  - destruct (String.eqb_spec k k') as [->|N]; simpl.
    + now rewrite String.eqb_refl.
    + apply String.eqb_neq in N. now rewrite N.
Qed.

Lemma dict_get_set_other k k' v d :
  k <> k' -> dict_get k (dict_set k' v d) = dict_get k d.
Proof.
  intros N. induction d as [|[k0 v0] d IH]; simpl.
  - apply String.eqb_neq in N. now rewrite N.
  - destruct (String.eqb_spec k' k0) as [->|_]; simpl.
    + apply String.eqb_neq in N. now rewrite N.
    + now rewrite IH.
Qed.

Lemma dict_get_In k v d :
  NoDup (dict_keys d) -> In (k, v) d -> dict_get k d = Some v.
Proof.
  induction d as [|[k' v'] d IH]; simpl; intros ND I; [contradiction|].
  inversion ND as [|? ? Hn ND']; subst.
  destruct I as [E|I].
  - inversion E; subst. now rewrite String.eqb_refl.
  - destruct (String.eqb_spec k k') as [->|_].
    + exfalso. apply Hn. change k' with (fst (k', v)). now apply in_map.
    + now apply IH.
Qed.

Lemma dict_get_None k d : ~ In k (dict_keys d) <-> dict_get k d = None.
Proof.
  induction d as [|[k' v'] d IH]; simpl; [tauto|].
  destruct (String.eqb_spec k k') as [->|N]; split; intros H.
  - exfalso. apply H. now left.
  - discriminate.
  - apply IH. intros I. apply H. now right.
  - intros [E|I]; [now apply N|]. now apply IH in H.
Qed.

Lemma entries_for_absent k d :
  ~ In k (dict_keys d) -> entries_for k d = [].
Proof.
  induction d as [|[k' v'] d IH]; simpl; intros H; [reflexivity|].
  destruct (String.eqb_spec k k') as [->|_].
  - exfalso. apply H. now left.
  - apply IH. intros I. apply H. now right.
Qed.

Lemma entries_for_once k d :
  NoDup (dict_keys d) -> In k (dict_keys d) ->
  length (entries_for k d) = 1.
Proof.
  induction d as [|[k' v'] d IH]; simpl; intros ND I; [contradiction|].
  inversion ND as [|? ? Hn ND']; subst.
  destruct (String.eqb_spec k k') as [->|N]; simpl.
  - now rewrite (entries_for_absent _ _ Hn).
  - destruct I as [E|I]; [now subst|]. now apply IH.
Qed.
End DictFacts.

(** ** Enumeration of the folder *)

Lemma glob_pdf_name (folder : string) (paths : list string) (n : string) :
  In n (map name (glob_pdf folder paths)) ->
  exists p, In p paths /\ pdf_name_in folder p = Some n.
Proof.
  induction paths as [|p ps IH]; simpl; [contradiction|].
  destruct (pdf_name_in folder p) as [m|] eqn:E; simpl.
  - intros [<-|I].
    + exists p. split; [now left | exact E].
    + destruct (IH I) as [q [Hq Eq]]. exists q. split; [now right | exact Eq].
  - intros I. destruct (IH I) as [q [Hq Eq]].
    exists q. split; [now right | exact Eq].
Qed.

Lemma glob_pdf_parent (folder : string) (paths : list string) (f : Path) :
  In f (glob_pdf folder paths) ->
  parent f = folder /\ In (path_str f) paths.
Proof.
  induction paths as [|p ps IH]; simpl; [contradiction|].
  destruct (pdf_name_in folder p) as [m|] eqn:E; simpl.
  - intros [<-|I].
    + split; [reflexivity|]. left.
      apply pdf_name_in_sound in E. now rewrite E.
    + destruct (IH I). split; [assumption | now right].
  - intros I. destruct (IH I). split; [assumption | now right].
Qed.

(** Two files of one folder never share a name. *)
Lemma glob_pdf_names_NoDup (folder : string) (paths : list string) :
  NoDup paths -> NoDup (map name (glob_pdf folder paths)).
Proof.
  induction paths as [|p ps IH]; simpl; intros ND; [constructor|].
  inversion ND as [|? ? Hn ND']; subst.
  destruct (pdf_name_in folder p) as [m|] eqn:E; simpl; [|now apply IH].
  constructor; [|now apply IH].
  intros I. apply glob_pdf_name in I. destruct I as [q [Hq Eq]].
  apply pdf_name_in_sound in E. apply pdf_name_in_sound in Eq.
  apply Hn. now rewrite E, <- Eq.
Qed.

(** ** The loop of the batch runner *)

Section RunnerFacts.
Variable Ext : Type.
Variable messages_create : string -> request -> Ext -> api_reply * Ext.
Variable datetime_now : Ext -> datetime * Ext.

Local Abbreviation loop := (invoice_loop messages_create datetime_now).
Local Abbreviation tried := (attempts messages_create datetime_now).
Local Abbreviation extract := (extract_iva_from_pdf messages_create).

Lemma invoice_loop_events api_key fs total idx pdf_files results e :
  emitted (loop api_key fs total idx pdf_files results e)
  = flat_map (iteration_events total) (enumerate_from idx pdf_files).
Proof.
  revert idx results e.
  induction pdf_files as [|f rest IH]; intros idx results e; simpl;
    [reflexivity|].
  destruct (extract (path_str f) api_key fs e) as [r e1].
  destruct (datetime_now e1) as [now e2].
  specialize (IH (S idx) (dict_set (name f)
                            (outcome_record r (strftime_timestamp now))
                            results) e2).
  destruct (loop api_key fs total (S idx) rest _ e2) as [[final events] e3].
  unfold emitted in *; simpl in *. now rewrite IH.
Qed.

Lemma attempts_files api_key fs pdf_files e :
  map (fun a => fst (fst a)) (tried api_key fs pdf_files e) = pdf_files.
Proof.
  revert e. induction pdf_files as [|f rest IH]; intros e; simpl;
    [reflexivity|].
  destruct (extract (path_str f) api_key fs e) as [r e1].
  destruct (datetime_now e1) as [now e2]. simpl. now rewrite IH.
Qed.

Lemma attempts_length api_key fs pdf_files e :
  length (tried api_key fs pdf_files e) = length pdf_files.
Proof.
  rewrite <- (attempts_files api_key fs pdf_files e) at 2.
  now rewrite length_map.
Qed.

Lemma entry_keys (l : list (Path * py_result string * string)) :
  dict_keys (map entry_of l) = map name (map (fun a => fst (fst a)) l).
Proof.
  unfold dict_keys. rewrite !map_map. apply map_ext.
  now intros [[f r] ts].
Qed.

Lemma attempts_keys api_key fs pdf_files e :
  dict_keys (map entry_of (tried api_key fs pdf_files e))
  = map name pdf_files.
Proof. now rewrite entry_keys, attempts_files. Qed.

(** With distinct names that are not yet keys, every iteration appends one
    entry. *)
Lemma invoice_loop_results api_key fs total idx pdf_files results e :
  NoDup (map name pdf_files) ->
  (forall f, In f pdf_files -> ~ In (name f) (dict_keys results)) ->
  returned (loop api_key fs total idx pdf_files results e)
  = results ++ map entry_of (tried api_key fs pdf_files e).
Proof.
  revert idx results e.
  induction pdf_files as [|f rest IH]; intros idx results e ND Fresh; simpl.
  - now rewrite app_nil_r.
  - inversion ND as [|? ? Hn ND']; subst.
    destruct (extract (path_str f) api_key fs e) as [r e1].
    destruct (datetime_now e1) as [now e2].
    set (rec := outcome_record r (strftime_timestamp now)).
    assert (Hset : dict_set (name f) rec results = results ++ [(name f, rec)])
      by (apply dict_set_fresh, Fresh; now left).
    specialize (IH (S idx) (dict_set (name f) rec results) e2 ND').
    destruct (loop api_key fs total (S idx) rest _ e2) as [[final events] e3].
    unfold returned in *; simpl in *.
    rewrite IH.
    + rewrite Hset, <- app_assoc. reflexivity.
    + intros g Hg. rewrite Hset. unfold dict_keys. rewrite map_app. simpl.
      intros I. apply in_app_or in I. destruct I as [I|[E|[]]].
      * apply (Fresh g); [now right | exact I].
      * apply Hn. rewrite E. now apply in_map.
Qed.

(** The run over a folder, when there is something to run. *)
Lemma process_all_invoices_some folder_path api_key fs e :
  NoDup (dict_keys fs) ->
  glob_pdf folder_path (dict_keys fs) <> [] ->
  returned (process_all_invoices messages_create datetime_now
              folder_path api_key fs e)
  = Some (map entry_of
            (tried api_key fs (glob_pdf folder_path (dict_keys fs)) e)).
Proof.
  intros ND NE. unfold process_all_invoices.
  pose proof (invoice_loop_results api_key fs
                (length (glob_pdf folder_path (dict_keys fs))) 0
                (glob_pdf folder_path (dict_keys fs)) [] e
                (glob_pdf_names_NoDup folder_path _ ND)
                (fun _ _ I => I)) as H.
  destruct (glob_pdf folder_path (dict_keys fs)) as [|f rest] eqn:G;
    [contradiction|].
  destruct (loop api_key fs (length (f :: rest)) 0 (f :: rest) [] e)
    as [[results events] e'].
  unfold returned in *; simpl in *. now rewrite H.
Qed.

Lemma process_all_invoices_events folder_path api_key fs e :
  glob_pdf folder_path (dict_keys fs) <> [] ->
  emitted (process_all_invoices messages_create datetime_now
             folder_path api_key fs e)
  = [ProgressNew 0; PlaceholderNew]
    ++ flat_map
         (iteration_events (length (glob_pdf folder_path (dict_keys fs))))
         (enumerate_from 0 (glob_pdf folder_path (dict_keys fs)))
    ++ [StatusClear; ProgressClear].
Proof.
  intros NE. unfold process_all_invoices.
  pose proof (invoice_loop_events api_key fs
                (length (glob_pdf folder_path (dict_keys fs))) 0
                (glob_pdf folder_path (dict_keys fs)) [] e) as H.
  destruct (glob_pdf folder_path (dict_keys fs)) as [|f rest] eqn:G;
    [contradiction|].
  destruct (loop api_key fs (length (f :: rest)) 0 (f :: rest) [] e)
    as [[results events] e'].
  unfold emitted in *; simpl in *. now rewrite H.
Qed.

Lemma process_all_invoices_none folder_path api_key fs e :
  glob_pdf folder_path (dict_keys fs) = [] ->
  process_all_invoices messages_create datetime_now folder_path api_key fs e
  = (None, [], e).
Proof.
  intros G. unfold process_all_invoices. now rewrite G.
Qed.
Lemma dict_set_not_nil {V : Type} (k : string) (v : V) (d : pydict V) :
  dict_set k v d <> [].
Proof.
  destruct d as [|[k' v'] d]; simpl; [discriminate|].
  destruct (String.eqb k k'); discriminate.
Qed.

Lemma invoice_loop_not_nil api_key fs total idx pdf_files results e :
  results <> [] ->
  returned (loop api_key fs total idx pdf_files results e) <> [].
Proof.
  revert idx results e.
  induction pdf_files as [|f rest IH]; intros idx results e NE; simpl;
    [exact NE|].
  destruct (extract (path_str f) api_key fs e) as [r e1].
  destruct (datetime_now e1) as [now e2].
  specialize (IH (S idx) (dict_set (name f)
                            (outcome_record r (strftime_timestamp now))
                            results) e2 (dict_set_not_nil _ _ _)).
  destruct (loop api_key fs total (S idx) rest _ e2) as [[final events] e3].
  exact IH.
Qed.

Lemma invoice_loop_some_file api_key fs total idx pdf_files results e :
  pdf_files <> [] ->
  returned (loop api_key fs total idx pdf_files results e) <> [].
Proof.
  destruct pdf_files as [|f rest]; intros NE; [contradiction|]. simpl.
  destruct (extract (path_str f) api_key fs e) as [r e1].
  destruct (datetime_now e1) as [now e2].
  pose proof (invoice_loop_not_nil api_key fs total (S idx) rest
                (dict_set (name f)
                   (outcome_record r (strftime_timestamp now)) results)
                e2 (dict_set_not_nil _ _ _)) as H.
  destruct (loop api_key fs total (S idx) rest _ e2) as [[final events] e3].
  exact H.
Qed.

Lemma extract_calls_app (l1 l2 : list event) :
  extract_calls (l1 ++ l2) = extract_calls l1 ++ extract_calls l2.
Proof.
  induction l1 as [|ev l1 IH]; simpl; [reflexivity|].
  destruct ev; simpl; now rewrite IH.
Qed.

Lemma status_indices_app (l1 l2 : list event) :
  status_indices (l1 ++ l2) = status_indices l1 ++ status_indices l2.
Proof.
  induction l1 as [|ev l1 IH]; simpl; [reflexivity|].
  destruct ev; simpl; now rewrite IH.
Qed.

Lemma extract_calls_iterations total idx pdf_files :
  extract_calls
    (flat_map (iteration_events total) (enumerate_from idx pdf_files))
  = map path_str pdf_files.
Proof.
  revert idx. induction pdf_files as [|f rest IH]; intros idx; simpl;
    [reflexivity|].
  now rewrite IH.
Qed.

Lemma status_indices_iterations total idx pdf_files :
  status_indices
    (flat_map (iteration_events total) (enumerate_from idx pdf_files))
  = seq (idx + 1) (length pdf_files).
Proof.
  revert idx. induction pdf_files as [|f rest IH]; intros idx; simpl;
    [reflexivity|].
  rewrite IH. now replace (S idx + 1) with (S (idx + 1)) by lia.
Qed.

Lemma status_insert_iterations total idx pdf_files :
  filter is_status_or_insert
    (flat_map (iteration_events total) (enumerate_from idx pdf_files))
  = flat_map
      (fun item => [StatusText (name (snd item)) (fst item + 1) total;
                    DictInsert (name (snd item))])
      (enumerate_from idx pdf_files).
Proof.
  revert idx. induction pdf_files as [|f rest IH]; intros idx; simpl;
    [reflexivity|].
  now rewrite IH.
Qed.

Lemma strftime_timestamp_not_empty (d : datetime) :
  strftime_timestamp d <> "".
Proof.
  unfold strftime_timestamp. intros H.
  apply append_eq_nil in H. destruct H as [_ H]. discriminate.
Qed.

(** C1.  Every file the folder lists is attempted, in order, whatever the
    earlier attempts gave; when there is a file, the run returns a mapping
    with as many entries as files, exactly one entry per file, and the entry
    of a file is the record of its own attempt: status [success] with the
    text returned, or, when the extraction raised, status [error] with
    "Error: " and the message of the exception; each with the time stamp
    taken after that attempt. *)
Theorem batch_runner_one_outcome_per_file
    (folder_path api_key : string) (fs : FS) (e : Ext) :
  NoDup (dict_keys fs) ->
  let pdf_files := glob_pdf folder_path (dict_keys fs) in
  let run :=
    process_all_invoices messages_create datetime_now
      folder_path api_key fs e in
  let tries := tried api_key fs pdf_files e in
  extract_calls (emitted run) = map path_str pdf_files
  /\ map (fun a => fst (fst a)) tries = pdf_files
  /\ (pdf_files <> [] ->
      exists results,
        returned run = Some results
        /\ dict_len results = length pdf_files
        /\ (forall pdf_path, In pdf_path pdf_files ->
              length (entries_for (name pdf_path) results) = 1)
        /\ (forall pdf_path text timestamp,
              In (pdf_path, Returned text, timestamp) tries ->
              dict_get (name pdf_path) results
              = Some [("status", "success"); ("data", text);
                      ("timestamp", timestamp)])
        /\ (forall pdf_path message timestamp,
              In (pdf_path, Raised message, timestamp) tries ->
              dict_get (name pdf_path) results
              = Some [("status", "error"); ("data", "Error: " +++ message);
                      ("timestamp", timestamp)])).
Proof.
  intros ND. cbv zeta.
  pose proof (attempts_keys api_key fs
                (glob_pdf folder_path (dict_keys fs)) e) as Keys.
  pose proof (glob_pdf_names_NoDup folder_path _ ND) as NDn.
  split; [|split].
  - destruct (glob_pdf folder_path (dict_keys fs)) as [|f rest] eqn:G.
    + now rewrite process_all_invoices_none.
    + rewrite process_all_invoices_events by (rewrite G; discriminate).
      rewrite G. simpl extract_calls at 1.
      rewrite extract_calls_app, extract_calls_iterations.
      simpl. now rewrite app_nil_r.
  - apply attempts_files.
  - intros NE.
    exists (map entry_of
              (tried api_key fs (glob_pdf folder_path (dict_keys fs)) e)).
    assert (Get : forall pdf_path r timestamp,
               In (pdf_path, r, timestamp)
                  (tried api_key fs (glob_pdf folder_path (dict_keys fs)) e) ->
               dict_get (name pdf_path)
                 (map entry_of
                    (tried api_key fs
                       (glob_pdf folder_path (dict_keys fs)) e))
               = Some (outcome_record r timestamp)).
    { intros f r ts I. apply dict_get_In; [now rewrite Keys|].
      change (name f, outcome_record r ts) with (entry_of (f, r, ts)).
      now apply in_map. }
    repeat split.
    + now apply process_all_invoices_some.
    + unfold dict_len. rewrite length_map. apply attempts_length.
    + intros f I. apply entries_for_once; rewrite Keys; [exact NDn|].
      now apply in_map.
    + intros f text ts I. exact (Get f (Returned text) ts I).
    + intros f message ts I. exact (Get f (Raised message) ts I).
Qed.

(** C2.  For a folder with N > 0 PDF files the run returns a mapping with
    exactly N entries whose keys are the names of the enumerated files, which
    are distinct. *)
Theorem process_all_invoices_n_entries
    (folder_path api_key : string) (fs : FS) (e : Ext) :
  NoDup (dict_keys fs) ->
  let pdf_files := glob_pdf folder_path (dict_keys fs) in
  pdf_files <> [] ->
  exists results,
    returned (process_all_invoices messages_create datetime_now
                folder_path api_key fs e) = Some results
    /\ dict_len results = length pdf_files
    /\ dict_keys results = map name pdf_files
    /\ NoDup (dict_keys results).
Proof.
  intros ND. cbv zeta. intros NE.
  exists (map entry_of
            (tried api_key fs (glob_pdf folder_path (dict_keys fs)) e)).
  pose proof (attempts_keys api_key fs
                (glob_pdf folder_path (dict_keys fs)) e) as Keys.
  repeat split.
  - now apply process_all_invoices_some.
  - unfold dict_len. rewrite length_map. apply attempts_length.
  - exact Keys.
  - rewrite Keys. now apply glob_pdf_names_NoDup.
Qed.

(** C3.  When the extraction raises on every call, the run over N > 0 files
    still returns a mapping with N entries; each has status [error], a
    non-empty description and a time stamp. *)
Theorem always_failing_client_all_errors
    (folder_path api_key : string) (fs : FS) (e : Ext) :
  NoDup (dict_keys fs) ->
  (forall pdf_path e0,
      exists message, fst (extract pdf_path api_key fs e0) = Raised message) ->
  let pdf_files := glob_pdf folder_path (dict_keys fs) in
  pdf_files <> [] ->
  exists results,
    returned (process_all_invoices messages_create datetime_now
                folder_path api_key fs e) = Some results
    /\ dict_len results = length pdf_files
    /\ (forall filename result, In (filename, result) results ->
          dict_get "status" result = Some "error"
          /\ (exists description,
                dict_get "data" result = Some description
                /\ description <> "")
          /\ (exists timestamp,
                dict_get "timestamp" result = Some timestamp
                /\ timestamp <> "")).
Proof.
  intros ND Fails. cbv zeta. intros NE.
  exists (map entry_of
            (tried api_key fs (glob_pdf folder_path (dict_keys fs)) e)).
  split; [|split].
  - now apply process_all_invoices_some.
  - unfold dict_len. rewrite length_map. apply attempts_length.
  - clear NE. generalize e as e0.
    induction (glob_pdf folder_path (dict_keys fs)) as [|f rest IH];
      intros e0 filename result I; simpl in I; [contradiction|].
    destruct (Fails (path_str f) e0) as [message Hm].
    destruct (extract (path_str f) api_key fs e0) as [r e1].
    simpl in Hm. subst r.
    destruct (datetime_now e1) as [now e2]. simpl in I.
    destruct I as [E|I]; [|exact (IH e2 filename result I)].
    inversion E; subst. simpl.
    split; [reflexivity|]. split.
    + eexists. split; [reflexivity|]. discriminate.
    + eexists. split; [reflexivity|]. apply strftime_timestamp_not_empty.
Qed.

Lemma process_all_invoices_calls folder_path api_key fs e :
  extract_calls
    (emitted (process_all_invoices messages_create datetime_now
                folder_path api_key fs e))
  = map path_str (glob_pdf folder_path (dict_keys fs)).
Proof.
  destruct (glob_pdf folder_path (dict_keys fs)) as [|f rest] eqn:G.
  - now rewrite process_all_invoices_none.
  - rewrite process_all_invoices_events by (rewrite G; discriminate).
    rewrite G. simpl extract_calls at 1.
    rewrite extract_calls_app, extract_calls_iterations.
    simpl. now rewrite app_nil_r.
Qed.

Lemma watched_iteration_agrees api_key fs total idx f (s : watch_state Ext) :
  w_results (watched_iteration messages_create datetime_now
               api_key fs total idx f s)
  = dict_set (name f)
      (outcome_record
         (fst (extract (path_str f) api_key fs (w_ext s)))
         (strftime_timestamp
            (fst (datetime_now
                    (snd (extract (path_str f) api_key fs (w_ext s)))))))
      (w_results s)
  /\ w_ext (watched_iteration messages_create datetime_now
              api_key fs total idx f s)
     = snd (datetime_now (snd (extract (path_str f) api_key fs (w_ext s))))
  /\ w_seen (watched_iteration messages_create datetime_now
               api_key fs total idx f s)
     = w_seen s
       ++ [(StatusText (name f) (idx + 1) total, w_results s);
           (ExtractCall (path_str f), w_results s);
           (DictInsert (name f),
            w_results (watched_iteration messages_create datetime_now
                         api_key fs total idx f s));
           (ProgressSet (idx + 1) total,
            w_results (watched_iteration messages_create datetime_now
                         api_key fs total idx f s))].
Proof.
  unfold watched_iteration, emit. cbn [w_results w_seen w_ext].
  destruct (extract (path_str f) api_key fs (w_ext s)) as [r e1].
  cbn [fst snd]. destruct (datetime_now e1) as [now e2].
  cbn [w_results w_seen w_ext fst snd].
  split; [reflexivity|]. split; [reflexivity|].
  now rewrite <- !app_assoc.
Qed.

(** The watched loop is the loop: same mapping, same events, same outside. *)
Lemma watched_loop_agrees api_key fs total idx pdf_files
    (s : watch_state Ext) :
  w_results (watched_loop messages_create datetime_now
               api_key fs total idx pdf_files s)
  = returned (loop api_key fs total idx pdf_files (w_results s) (w_ext s))
  /\ map fst (w_seen (watched_loop messages_create datetime_now
                        api_key fs total idx pdf_files s))
     = map fst (w_seen s)
       ++ emitted (loop api_key fs total idx pdf_files
                     (w_results s) (w_ext s))
  /\ w_ext (watched_loop messages_create datetime_now
              api_key fs total idx pdf_files s)
     = ext_after (loop api_key fs total idx pdf_files
                    (w_results s) (w_ext s)).
Proof.
  revert idx s. induction pdf_files as [|f rest IH]; intros idx s.
  - cbn. now rewrite app_nil_r.
  - cbn [watched_loop invoice_loop].
    destruct (watched_iteration_agrees api_key fs total idx f s)
      as [Hr [He Hs]].
    destruct (IH (S idx)
                (watched_iteration messages_create datetime_now
                   api_key fs total idx f s)) as [IH1 [IH2 IH3]].
    rewrite IH1, IH2, IH3, Hr, He, Hs. clear IH IH1 IH2 IH3 Hr He Hs.
    destruct (extract (path_str f) api_key fs (w_ext s)) as [r e1].
    cbn [fst snd]. destruct (datetime_now e1) as [now e2]. cbn [fst snd].
    destruct (loop api_key fs total (S idx) rest _ e2)
      as [[final events] e3].
    unfold returned, emitted, ext_after. cbn [fst snd].
    repeat split. rewrite map_app, <- app_assoc. reflexivity.
Qed.

Lemma dict_len_set_fresh {V : Type} (k : string) (v : V) (d : pydict V) :
  dict_get k d = None -> dict_len (dict_set k v d) = S (dict_len d).
Proof.
  intros H. apply dict_get_None in H. rewrite (dict_set_fresh _ _ _ H).
  unfold dict_len. rewrite length_app. cbn. lia.
Qed.

Lemma dict_mem_set {V : Type} (k k' : string) (v : V) (d : pydict V) :
  dict_mem k (dict_set k' v d)
  = if String.eqb k k' then true else dict_mem k d.
Proof.
  unfold dict_mem. destruct (String.eqb_spec k k') as [->|N].
  - now rewrite dict_get_set_same.
  - now rewrite dict_get_set_other.
Qed.

(** Every event of the watched loop sees the mapping as [seen_in_order]
    says, when the names are distinct and not yet keys. *)
Lemma watched_loop_seen api_key fs total idx pdf_files
    (s : watch_state Ext) :
  NoDup (map name pdf_files) ->
  (forall f, In f pdf_files -> dict_get (name f) (w_results s) = None) ->
  dict_len (w_results s) = idx ->
  Forall seen_in_order (w_seen s) ->
  Forall seen_in_order
    (w_seen (watched_loop messages_create datetime_now
               api_key fs total idx pdf_files s)).
Proof.
  revert idx s. induction pdf_files as [|f rest IH];
    intros idx s ND Fresh Len Seen; [exact Seen|].
  cbn [watched_loop]. inversion ND as [|? ? Hn ND']; subst.
  destruct (watched_iteration_agrees api_key fs total (dict_len (w_results s))
              f s) as [Hr [_ Hs]].
  assert (Hf : dict_get (name f) (w_results s) = None)
    by (apply Fresh; now left).
  apply IH.
  - exact ND'.
  - intros g Hg. rewrite Hr, dict_get_set_other.
    + apply Fresh. now right.
    + intros E. apply Hn. rewrite <- E. now apply in_map.
  - rewrite Hr. now apply dict_len_set_fresh.
  - rewrite Hs. apply Forall_app. split; [exact Seen|].
    repeat constructor; unfold seen_in_order; cbn [fst snd].
    + lia.
    + exact Hf.
    + rewrite Hr, dict_mem_set. now rewrite String.eqb_refl.
    + rewrite Hr. rewrite dict_len_set_fresh by exact Hf. lia.
Qed.

Lemma watched_loop_keeps api_key fs total idx pdf_files
    (s : watch_state Ext) (k : string) :
  dict_mem k (w_results s) = true ->
  dict_mem k (w_results (watched_loop messages_create datetime_now
                           api_key fs total idx pdf_files s)) = true.
Proof.
  revert idx s. induction pdf_files as [|f rest IH]; intros idx s H;
    [exact H|].
  cbn [watched_loop]. apply IH.
  destruct (watched_iteration_agrees api_key fs total idx f s) as [Hr _].
  rewrite Hr, dict_mem_set. now destruct (String.eqb k (name f)).
Qed.

(** The file of every status line has its outcome in the final mapping. *)
Lemma watched_loop_notified api_key fs total idx pdf_files
    (s : watch_state Ext) :
  Forall (notified_in
            (w_results (watched_loop messages_create datetime_now
                          api_key fs total idx pdf_files s)))
    (w_seen s) ->
  Forall (notified_in
            (w_results (watched_loop messages_create datetime_now
                          api_key fs total idx pdf_files s)))
    (w_seen (watched_loop messages_create datetime_now
               api_key fs total idx pdf_files s)).
Proof.
  revert idx s. induction pdf_files as [|f rest IH]; intros idx s Seen;
    [exact Seen|].
  cbn [watched_loop] in *. apply IH.
  destruct (watched_iteration_agrees api_key fs total idx f s)
    as [Hr [_ Hs]].
  rewrite Hs. apply Forall_app. split; [exact Seen|].
  repeat constructor; unfold notified_in; cbn [fst snd].
  apply watched_loop_keeps. rewrite Hr, dict_mem_set.
  now rewrite String.eqb_refl.
Qed.

(** C4.  A run over N files emits exactly N progress notifications (the
    status line with the position, the total and the file name); their
    indices are 1, 2, ..., N in this order.  Each is emitted before the
    outcome of its file is inserted: when the status line of the k-th file
    is shown the mapping holds the k - 1 earlier outcomes and no entry for
    that file; the entry is there when the progress bar is next advanced,
    and in the mapping the run returns.  The mapping seen at each event is
    the one the loop has built by then. *)
Theorem progress_notifications_in_order
    (folder_path api_key : string) (fs : FS) (e : Ext) :
  let pdf_files := glob_pdf folder_path (dict_keys fs) in
  let events :=
    emitted (process_all_invoices messages_create datetime_now
               folder_path api_key fs e) in
  let watched :=
    watched_loop messages_create datetime_now api_key fs
      (length pdf_files) 0 pdf_files
      {| w_results := []; w_seen := []; w_ext := e |} in
  length (status_indices events) = length pdf_files
  /\ status_indices events = seq 1 (length pdf_files)
  /\ filter is_status_or_insert events
     = flat_map
         (fun item =>
            [StatusText (name (snd item)) (fst item + 1) (length pdf_files);
             DictInsert (name (snd item))])
         (enumerate_from 0 pdf_files)
  /\ events
     = match pdf_files with
       | [] => []
       | _ :: _ =>
           [ProgressNew 0; PlaceholderNew]
           ++ map fst (w_seen watched)
           ++ [StatusClear; ProgressClear]
       end
  /\ map fst (w_seen watched)
     = flat_map (iteration_events (length pdf_files))
         (enumerate_from 0 pdf_files)
  /\ returned (process_all_invoices messages_create datetime_now
                 folder_path api_key fs e)
     = match pdf_files with
       | [] => None
       | _ :: _ => Some (w_results watched)
       end
  /\ (NoDup (dict_keys fs) ->
      Forall seen_in_order (w_seen watched)
      /\ Forall (notified_in (w_results watched)) (w_seen watched)).
Proof.
  cbv zeta.
  pose proof (process_all_invoices_events folder_path api_key fs e) as Ev.
  pose proof (process_all_invoices_none folder_path api_key fs e) as No.
  pose proof (glob_pdf_names_NoDup folder_path (dict_keys fs)) as NDn.
  destruct (watched_loop_agrees api_key fs
              (length (glob_pdf folder_path (dict_keys fs))) 0
              (glob_pdf folder_path (dict_keys fs))
              {| w_results := []; w_seen := []; w_ext := e |})
    as [Ar [As _]].
  cbn [w_results w_seen w_ext map app] in Ar, As.
  rewrite invoice_loop_events in As.
  assert (Snap : NoDup (dict_keys fs) ->
                 Forall seen_in_order
                   (w_seen (watched_loop messages_create datetime_now
                              api_key fs
                              (length (glob_pdf folder_path (dict_keys fs)))
                              0 (glob_pdf folder_path (dict_keys fs))
                              {| w_results := []; w_seen := [];
                                 w_ext := e |}))
                 /\ Forall
                      (notified_in
                         (w_results
                            (watched_loop messages_create datetime_now
                               api_key fs
                               (length (glob_pdf folder_path (dict_keys fs)))
                               0 (glob_pdf folder_path (dict_keys fs))
                               {| w_results := []; w_seen := [];
                                  w_ext := e |})))
                      (w_seen (watched_loop messages_create datetime_now
                                 api_key fs
                                 (length (glob_pdf folder_path
                                            (dict_keys fs)))
                                 0 (glob_pdf folder_path (dict_keys fs))
                                 {| w_results := []; w_seen := [];
                                    w_ext := e |}))).
  { intros ND. split.
    - apply watched_loop_seen; [now apply NDn | reflexivity.. | constructor].
    - apply watched_loop_notified. constructor. }
  rewrite As.
  destruct (glob_pdf folder_path (dict_keys fs)) as [|f rest] eqn:G.
  - rewrite No by reflexivity. now repeat split.
  - rewrite Ev by discriminate.
    assert (Idx : status_indices
                    ([ProgressNew 0; PlaceholderNew]
                     ++ flat_map (iteration_events (length (f :: rest)))
                          (enumerate_from 0 (f :: rest))
                     ++ [StatusClear; ProgressClear])
                  = seq 1 (length (f :: rest))).
    { simpl status_indices at 1.
      rewrite status_indices_app, status_indices_iterations.
      simpl. now rewrite app_nil_r. }
    split; [|split; [|split; [|split; [|split; [|split; [|exact Snap]]]]]].
    + rewrite Idx. apply length_seq.
    + exact Idx.
    + simpl filter at 1.
      rewrite filter_app, status_insert_iterations.
      simpl. now rewrite app_nil_r.
    + reflexivity.
    + reflexivity.
    + rewrite Ar. unfold process_all_invoices. rewrite G.
      destruct (loop api_key fs (length (f :: rest)) 0 (f :: rest) [] e)
        as [[final events] e3].
      reflexivity.
Qed.

(** C5.  A folder without PDF files makes [process_all_invoices] return
    [None]: nothing is extracted, nothing is shown, and the value is not the
    empty mapping.  A mapping that is returned is never empty, so [None] is
    returned exactly when there is nothing to process. *)
Theorem empty_folder_returns_None
    (folder_path api_key : string) (fs : FS) (e : Ext) :
  let run :=
    process_all_invoices messages_create datetime_now
      folder_path api_key fs e in
  (glob_pdf folder_path (dict_keys fs) = [] -> run = (None, [], e))
  /\ (glob_pdf folder_path (dict_keys fs) = [] <-> returned run = None)
  /\ returned run <> Some []
  /\ (forall results, returned run = Some results -> 0 < dict_len results).
Proof.
  cbv zeta.
  assert (NonEmpty : forall results,
             returned (process_all_invoices messages_create datetime_now
                         folder_path api_key fs e) = Some results ->
             results <> []).
  { intros results. unfold process_all_invoices.
    destruct (glob_pdf folder_path (dict_keys fs)) as [|f rest];
      [discriminate|].
    pose proof (invoice_loop_some_file api_key fs (length (f :: rest)) 0
                  (f :: rest) [] e) as H.
    destruct (loop api_key fs (length (f :: rest)) 0 (f :: rest) [] e)
      as [[final events] e3].
    unfold returned in *; simpl in *. intros E; inversion E; subst.
    apply H. discriminate. }
  split; [|split; [|split]].
  - apply process_all_invoices_none.
  - split.
    + intros G. now rewrite process_all_invoices_none.
    + unfold process_all_invoices.
      destruct (glob_pdf folder_path (dict_keys fs)) as [|f rest];
        [reflexivity|].
      destruct (loop api_key fs (length (f :: rest)) 0 (f :: rest) [] e)
        as [[final events] e3].
      discriminate.
  - intros E. now apply (NonEmpty [] E).
  - intros results E. apply NonEmpty in E.
    destruct results; [contradiction | simpl; lia].
Qed.
End RunnerFacts.

(** ** The exporters *)

Lemma has_fields_get (fields : list string) (r : outcome) (f : string) :
  has_fields fields r = true -> In f fields ->
  dict_get f r = Some (field f r).
Proof.
  unfold has_fields, field, dict_mem. rewrite forallb_forall.
  intros H I. specialize (H f I). now destruct (dict_get f r).
Qed.

(** One iteration appends one section. *)
Lemma report_loop_cons (filename : string) (result : outcome)
    (rest : list (string * outcome)) (text : string) :
  report_loop ((filename, result) :: rest) text
  = (status <- dict_get "status" result ;;
     data <- dict_get "data" result ;;
     report_loop rest (text +++ report_section filename status data)).
Proof.
  cbn [report_loop]. unfold opt_bind, report_section.
  destruct (dict_get "status" result) as [status|]; [|reflexivity].
  destruct (dict_get "data" result) as [data|]; [|reflexivity].
  f_equal. now rewrite !append_assoc.
Qed.

(** The loop appends the sections of the items it is given. *)
Lemma report_loop_sections (items : list (string * outcome)) (text : string) :
  Forall (fun kv => has_fields ["status"; "data"] (snd kv) = true) items ->
  report_loop items text = Some (text +++ str_concat (map section_of items)).
Proof.
  revert text. induction items as [|[filename result] rest IH];
    intros text Ok.
  - simpl. now rewrite append_nil_r.
  - inversion Ok as [|? ? Hr Ok']; subst. cbn [snd] in Hr.
    rewrite report_loop_cons.
    rewrite (has_fields_get _ _ "status" Hr) by (simpl; tauto).
    rewrite (has_fields_get _ _ "data" Hr) by (simpl; tauto).
    unfold opt_bind. rewrite (IH _ Ok').
    cbn [map str_concat]. unfold section_of. cbn [fst snd].
    now rewrite append_assoc.
Qed.

Lemma combined_text_sections (results : pydict outcome)
    (processed_at : string) :
  Forall (fun kv => has_fields ["status"; "data"] (snd kv) = true) results ->
  combined_text results processed_at
  = Some (report_header processed_at
          +++ str_concat (map section_of (dict_items results))).
Proof.
  intros Ok. unfold combined_text, dict_items.
  now apply report_loop_sections.
Qed.

(** The report depends on nothing but the keys and the fields [status] and
    [data] of the records. *)
Lemma report_loop_same_on (d1 d2 : list (string * outcome)) (text : string) :
  same_on ["status"; "data"] d1 d2 ->
  report_loop d1 text = report_loop d2 text.
Proof.
  intros S. revert text.
  induction S as [|[k1 r1] [k2 r2] d1 d2 [Hk Hf] S IH]; intros text;
    [reflexivity|].
  cbn [fst snd] in Hk, Hf. subst k2. rewrite !report_loop_cons.
  rewrite (Hf "status") by (simpl; tauto).
  rewrite (Hf "data") by (simpl; tauto).
  unfold opt_bind.
  destruct (dict_get "status" r2); [|reflexivity].
  destruct (dict_get "data" r2); [|reflexivity].
  apply IH.
Qed.

(** The row of the summary for one item of the mapping. *)
Lemma summary_loop_rows (items : list (string * outcome))
    (summary : list (pydict string)) :
  Forall (fun kv => has_fields outcome_fields (snd kv) = true) items ->
  summary_loop items summary
  = Some (summary
          ++ map (fun kv =>
                    summary_row (fst kv) (field "status" (snd kv))
                      (field "timestamp" (snd kv)) (field "data" (snd kv)))
               items).
Proof.
  revert summary. induction items as [|[filename result] rest IH];
    intros summary Ok.
  - simpl. now rewrite app_nil_r.
  - inversion Ok as [|? ? Hr Ok']; subst. cbn [snd] in Hr.
    cbn [summary_loop map fst snd].
    rewrite (has_fields_get _ _ "status" Hr) by (simpl; tauto).
    rewrite (has_fields_get _ _ "timestamp" Hr) by (simpl; tauto).
    rewrite (has_fields_get _ _ "data" Hr) by (simpl; tauto).
    unfold opt_bind. rewrite (IH _ Ok'), <- app_assoc. reflexivity.
Qed.

Lemma summary_loop_same_on (d1 d2 : list (string * outcome))
    (summary : list (pydict string)) :
  same_on outcome_fields d1 d2 ->
  summary_loop d1 summary = summary_loop d2 summary.
Proof.
  intros S. revert summary.
  induction S as [|[k1 r1] [k2 r2] d1 d2 [Hk Hf] S IH]; intros summary;
    [reflexivity|].
  cbn [fst snd] in Hk, Hf. subst k2. cbn [summary_loop].
  rewrite (Hf "status") by (simpl; tauto).
  rewrite (Hf "timestamp") by (simpl; tauto).
  rewrite (Hf "data") by (simpl; tauto).
  unfold opt_bind.
  destruct (dict_get "status" r2); [|reflexivity].
  destruct (dict_get "timestamp" r2); [|reflexivity].
  destruct (dict_get "data" r2); [|reflexivity].
  apply IH.
Qed.

Lemma union_keys_summary (records : list (pydict string)) :
  Forall (fun r => dict_keys r = summary_columns) records ->
  union_keys summary_columns records = summary_columns.
Proof.
  induction records as [|r rest IH]; intros Ok; simpl; [reflexivity|].
  inversion Ok as [|? ? Hr Ok']; subst. rewrite Hr.
  exact (IH Ok').
Qed.

Lemma DataFrame_of_summary (rows : list (string * string * string * string)) :
  rows <> [] ->
  DataFrame_of_records
    (map (fun '(f, s, t, d) => summary_row f s t d) rows)
  = {| df_columns := summary_columns;
       df_rows := map (fun '(f, s, t, d) => [Some f; Some s; Some t; Some d])
                    rows |}.
Proof.
  intros NE. unfold DataFrame_of_records.
  assert (C : union_keys []
                (map (fun '(f, s, t, d) => summary_row f s t d) rows)
              = summary_columns).
  { destruct rows as [|[[[f s] t] d] rest]; [contradiction|].
    simpl. apply union_keys_summary.
    apply Forall_forall. intros r I. apply in_map_iff in I.
    destruct I as [[[[f' s'] t'] d'] [<- _]]. reflexivity. }
  rewrite C. f_equal. rewrite map_map. apply map_ext.
  now intros [[[f s] t] d].
Qed.

Lemma create_summary_table_rows (results : pydict outcome) :
  Forall (fun kv => has_fields outcome_fields (snd kv) = true) results ->
  create_summary_table results
  = Some (DataFrame_of_records
            (map (fun '(f, s, t, d) => summary_row f s t d)
               (map (fun kv => (fst kv, field "status" (snd kv),
                                field "timestamp" (snd kv),
                                field "data" (snd kv)))
                  results))).
Proof.
  intros Ok. unfold create_summary_table, dict_items.
  rewrite (summary_loop_rows _ _ Ok). unfold opt_bind. simpl app.
  now rewrite map_map.
Qed.

Lemma export_column_text (Ext : Type) (datetime_now : Ext -> datetime * Ext)
    (ss : session_state) (e : Ext) (results : pydict outcome)
    (processed_at : string) :
  ss_results ss = Some results ->
  ss_processed_at ss = Some processed_at ->
  option_map dl_data (ex_txt (fst (export_column datetime_now ss e)))
  = combined_text results processed_at.
Proof.
  intros Hr Hp. unfold export_column. rewrite Hr, Hp. unfold opt_bind.
  destruct (combined_text results processed_at) as [text|]; [|reflexivity].
  destruct (datetime_now e) as [now1 e1].
  destruct (create_summary_table results) as [df|]; [|reflexivity].
  now destruct (datetime_now e1) as [now2 e2].
Qed.

(** C7.  The text offered for download is a function of the outcome mapping
    and of [processed_at] alone: two renderings of the same result set, under
    any two clocks and external states, give the same bytes.  For records
    with a status and a payload the text is the header (the title, the line
    "Fecha: " with [processed_at], a blank line, a rule of 80 signs "=" and
    a blank line) followed by one section per outcome. *)
Theorem text_report_deterministic
    (Ext1 Ext2 : Type)
    (now1 : Ext1 -> datetime * Ext1) (now2 : Ext2 -> datetime * Ext2)
    (ss1 ss2 : session_state) (e1 : Ext1) (e2 : Ext2)
    (results : pydict outcome) (processed_at : string) :
  ss_results ss1 = Some results -> ss_results ss2 = Some results ->
  ss_processed_at ss1 = Some processed_at ->
  ss_processed_at ss2 = Some processed_at ->
  option_map dl_data (ex_txt (fst (export_column now1 ss1 e1)))
  = option_map dl_data (ex_txt (fst (export_column now2 ss2 e2)))
  /\ option_map dl_data (ex_txt (fst (export_column now1 ss1 e1)))
     = combined_text results processed_at
  /\ (Forall (fun kv => has_fields ["status"; "data"] (snd kv) = true)
        results ->
      combined_text results processed_at
      = Some ("EXTRACCIÓN DE BASES DE IVA" +++ nl
              +++ "Fecha: " +++ processed_at +++ nl
              +++ nl
              +++ str_repeat "=" 80 +++ nl
              +++ nl
              +++ str_concat
                    (map (fun kv =>
                            "FACTURA: " +++ fst kv +++ nl
                            +++ "Estado: " +++ field "status" (snd kv) +++ nl
                            +++ str_repeat "-" 80 +++ nl
                            +++ field "data" (snd kv) +++ nl
                            +++ str_repeat "=" 80 +++ nl
                            +++ nl)
                       (dict_items results)))).
Proof.
  intros R1 R2 P1 P2.
  rewrite (export_column_text _ now1 ss1 e1 results processed_at R1 P1).
  rewrite (export_column_text _ now2 ss2 e2 results processed_at R2 P2).
  split; [reflexivity|]. split; [reflexivity|].
  intros Ok.
  rewrite (combined_text_sections _ _ Ok). f_equal.
  rewrite (map_ext section_of
             (fun kv =>
                "FACTURA: " +++ fst kv +++ nl
                +++ "Estado: " +++ field "status" (snd kv) +++ nl
                +++ str_repeat "-" 80 +++ nl
                +++ field "data" (snd kv) +++ nl
                +++ str_repeat "=" 80 +++ nl
                +++ nl)).
  - unfold report_header. now rewrite !append_assoc.
  - intros kv. unfold section_of, report_section.
    now rewrite !append_assoc.
Qed.

Lemma create_summary_table_frame (results : pydict outcome) :
  Forall (fun kv => has_fields outcome_fields (snd kv) = true) results ->
  results <> [] ->
  create_summary_table results
  = Some {| df_columns := summary_columns;
            df_rows := map summary_cells results |}.
Proof.
  intros Ok NE. rewrite (create_summary_table_rows _ Ok).
  rewrite DataFrame_of_summary.
  - now rewrite map_map.
  - destruct results; [contradiction | discriminate].
Qed.

Lemma summary_cells_get (kv : string * outcome) :
  has_fields outcome_fields (snd kv) = true ->
  summary_cells kv
  = [Some (fst kv); dict_get "status" (snd kv);
     dict_get "timestamp" (snd kv); dict_get "data" (snd kv)].
Proof.
  intros Ok. unfold summary_cells, outcome in *.
  rewrite (has_fields_get _ _ "status" Ok) by (simpl; tauto).
  rewrite (has_fields_get _ _ "timestamp" Ok) by (simpl; tauto).
  rewrite (has_fields_get _ _ "data" Ok) by (simpl; tauto).
  reflexivity.
Qed.

Lemma summary_names (rows : list (list (option string)))
    (results : pydict outcome) :
  map (df_cell {| df_columns := summary_columns; df_rows := rows |} "Factura")
    (map summary_cells results)
  = map Some (dict_keys results).
Proof.
  unfold dict_keys. rewrite !map_map. apply map_ext. now intros [k r].
Qed.

(** A key held once is the first cell of one row. *)
Lemma names_once (filename : string) (keys : list string) :
  NoDup keys -> In filename keys ->
  length (filter (fun c => match c with
                           | Some f => String.eqb filename f
                           | None => false
                           end)
            (map Some keys)) = 1.
Proof.
  induction keys as [|k rest IH]; intros ND I; [contradiction|].
  inversion ND as [|? ? Hn ND']; subst. cbn [map filter].
  destruct (String.eqb_spec filename k) as [->|N].
  - cbn [length]. f_equal.
    clear - Hn. induction rest as [|k' rest IH]; [reflexivity|].
    cbn [map filter].
    destruct (String.eqb_spec k k') as [->|_].
    + exfalso. apply Hn. now left.
    + apply IH. intros I. apply Hn. now right.
  - destruct I as [E|I]; [now subst|]. now apply IH.
Qed.

Lemma filter_cells (df : DataFrame) (filename : string)
    (rows : list (list (option string))) :
  length (filter
            (fun row =>
               match df_cell df "Factura" row with
               | Some f => String.eqb filename f
               | None => false
               end) rows)
  = length (filter (fun c => match c with
                             | Some f => String.eqb filename f
                             | None => false
                             end)
              (map (df_cell df "Factura") rows)).
Proof.
  induction rows as [|row rows IH]; [reflexivity|].
  cbn [filter map].
  destruct (df_cell df "Factura" row) as [f|]; [|exact IH].
  destruct (String.eqb filename f); [|exact IH].
  cbn [length]. now rewrite IH.
Qed.

(** C8.  For a mapping whose records hold the three fields, the summary
    table has one row per outcome, in the order of the mapping: the row of an
    entry holds its file name, status, time stamp and payload under the four
    columns; the number of rows is the size of the mapping, the file name of
    every row is a key held once, and every key is the file name of one
    row. *)
Theorem summary_table_one_row_per_outcome (results : pydict outcome) :
  NoDup (dict_keys results) ->
  Forall (fun kv => has_fields outcome_fields (snd kv) = true) results ->
  exists df,
    create_summary_table results = Some df
    /\ length (df_rows df) = dict_len results
    /\ (results <> [] -> df_columns df = summary_columns)
    /\ df_rows df
       = map (fun kv => [Some (fst kv); dict_get "status" (snd kv);
                         dict_get "timestamp" (snd kv);
                         dict_get "data" (snd kv)])
           (dict_items results)
    /\ map (df_cell df "Factura") (df_rows df) = map Some (dict_keys results)
    /\ (forall row, In row (df_rows df) ->
          exists filename,
            df_cell df "Factura" row = Some filename
            /\ length (entries_for filename results) = 1)
    /\ (forall filename, In filename (dict_keys results) ->
          length (filter
                    (fun row =>
                       match df_cell df "Factura" row with
                       | Some f => String.eqb filename f
                       | None => false
                       end)
                    (df_rows df)) = 1).
Proof.
  intros ND Ok.
  destruct results as [|kv0 rest] eqn:R.
  { exists {| df_columns := []; df_rows := [] |}.
    repeat split; try reflexivity; try contradiction. }
  rewrite <- R in *.
  assert (NE : results <> []) by (rewrite R; discriminate).
  exists {| df_columns := summary_columns;
            df_rows := map summary_cells results |}.
  pose proof (summary_names (map summary_cells results) results) as Names.
  cbn [df_rows df_columns].
  split; [|split; [|split; [|split; [|split; [|split]]]]].
  - now apply create_summary_table_frame.
  - unfold dict_len. apply length_map.
  - reflexivity.
  - unfold dict_items. apply map_ext_in. intros kv I.
    apply summary_cells_get.
    rewrite Forall_forall in Ok. now apply Ok.
  - exact Names.
  - intros row I.
    assert (I' : In (df_cell {| df_columns := summary_columns;
                                df_rows := map summary_cells results |}
                       "Factura" row)
                   (map Some (dict_keys results))).
    { rewrite <- Names. now apply in_map. }
    apply in_map_iff in I'. destruct I' as [filename [E Hk]].
    exists filename. split; [now symmetry|].
    now apply entries_for_once.
  - intros filename I. rewrite filter_cells, Names.
    now apply names_once.
Qed.

Lemma tabs_loop_views (d : list (string * outcome)) :
  Forall (fun kv => has_fields outcome_fields (snd kv) = true) d ->
  exists views,
    tabs_loop (combine (map tab_label_of (map fst d)) d) = Some views
    /\ map tab_text views = map fst d
    /\ map tab_code views = map (fun kv => field "data" (snd kv)) d.
Proof.
  induction d as [|[k r] rest IH]; intros Ok.
  - exists []. now repeat split.
  - inversion Ok as [|? ? Hr Ok']; subst. cbn [snd] in Hr.
    destruct (IH Ok') as [views [Hv [Ht Hc]]].
    cbn [map fst combine tabs_loop].
    rewrite (has_fields_get _ _ "status" Hr) by (simpl; tauto).
    rewrite (has_fields_get _ _ "data" Hr) by (simpl; tauto).
    rewrite (has_fields_get _ _ "timestamp" Hr) by (simpl; tauto).
    unfold opt_bind. rewrite Hv.
    eexists. split; [reflexivity|].
    cbn [map tab_text tab_code snd]. now rewrite Ht, Hc.
Qed.

Lemma entry_of_fields (a : Path * py_result string * string) :
  dict_keys (snd (entry_of a)) = outcome_fields.
Proof. destruct a as [[f [result|message]] ts]; reflexivity. Qed.

Lemma entries_have_fields (l : list (Path * py_result string * string)) :
  Forall (fun kv => has_fields outcome_fields (snd kv) = true)
    (map entry_of l).
Proof.
  apply Forall_forall. intros kv I. apply in_map_iff in I.
  destruct I as [[[f [result|message]] ts] [<- _]]; reflexivity.
Qed.

Lemma entries_have_status_data
    (l : list (Path * py_result string * string)) :
  Forall (fun kv => has_fields ["status"; "data"] (snd kv) = true)
    (map entry_of l).
Proof.
  apply Forall_forall. intros kv I. apply in_map_iff in I.
  destruct I as [[[f [result|message]] ts] [<- _]]; reflexivity.
Qed.

Lemma dict_get_del {V : Type} (k : string) (d : pydict V) :
  NoDup (dict_keys d) -> dict_get k (dict_del k d) = None.
Proof.
  induction d as [|[k' v] d IH]; simpl; intros ND; [reflexivity|].
  inversion ND as [|? ? Hn ND']; subst.
  destruct (String.eqb_spec k k') as [->|N].
  - now apply dict_get_None.
  - simpl. apply String.eqb_neq in N. rewrite N. now apply IH.
Qed.

Lemma without_field_missing (f filename : string) (results : pydict outcome) :
  Forall (fun kv => NoDup (dict_keys (snd kv))) results ->
  In filename (dict_keys results) ->
  Exists (fun kv => dict_get f (snd kv) = None)
    (without_field f filename results).
Proof.
  induction results as [|[k r] rest IH]; intros Ok I; [contradiction|].
  inversion Ok as [|? ? Hr Ok']; subst. cbn [snd] in Hr.
  cbn [without_field map fst snd].
  destruct (String.eqb_spec filename k) as [->|N].
  - apply Exists_cons_hd. cbn [snd]. now apply dict_get_del.
  - apply Exists_cons_tl. apply IH; [exact Ok'|].
    destruct I as [E|I]; [now subst|exact I].
Qed.

Lemma summary_loop_missing (f : string) (items : list (string * outcome))
    (summary : list (pydict string)) :
  In f outcome_fields ->
  Exists (fun kv => dict_get f (snd kv) = None) items ->
  summary_loop items summary = None.
Proof.
  intros F Ex. revert summary.
  induction Ex as [[k r] rest Hm|[k r] rest Ex IH]; intros summary;
    cbn [summary_loop]; unfold opt_bind.
  - cbn [snd] in Hm.
    destruct F as [<-|[<-|[<-|[]]]]; rewrite Hm;
      repeat (match goal with
              | |- context [match dict_get ?x ?y with _ => _ end] =>
                  destruct (dict_get x y)
              end); reflexivity.
  - destruct (dict_get "status" r); [|reflexivity].
    destruct (dict_get "timestamp" r); [|reflexivity].
    destruct (dict_get "data" r); [|reflexivity].
    apply IH.
Qed.

Lemma report_loop_missing (f : string) (items : list (string * outcome))
    (text : string) :
  In f ["status"; "data"] ->
  Exists (fun kv => dict_get f (snd kv) = None) items ->
  report_loop items text = None.
Proof.
  intros F Ex. revert text.
  induction Ex as [[k r] rest Hm|[k r] rest Ex IH]; intros text;
    rewrite report_loop_cons; unfold opt_bind.
  - cbn [snd] in Hm.
    destruct F as [<-|[<-|[]]]; rewrite Hm;
      repeat (match goal with
              | |- context [match dict_get ?x ?y with _ => _ end] =>
                  destruct (dict_get x y)
              end); reflexivity.
  - destruct (dict_get "status" r); [|reflexivity].
    destruct (dict_get "data" r); [|reflexivity].
    apply IH.
Qed.

(** ** The page: order, upload and the shape of the records *)

Section PageFacts.
Variable Ext : Type.
Variable messages_create : string -> request -> Ext -> api_reply * Ext.
Variable datetime_now : Ext -> datetime * Ext.

Local Abbreviation run := (process_all_invoices messages_create datetime_now).
Local Abbreviation tried := (attempts messages_create datetime_now).

Lemma glob_pdf_finds (folder n : string) (paths : list string) :
  In (folder +++ "/" +++ n) paths ->
  contains "/" n = false -> endswith ".pdf" n = true ->
  In (path_div folder n) (glob_pdf folder paths).
Proof.
  intros I Hs He. induction paths as [|p ps IH]; [contradiction|].
  cbn [glob_pdf]. destruct I as [->|I].
  - rewrite (pdf_name_in_complete folder n Hs He). now left.
  - destruct (pdf_name_in folder p); [right|]; now apply IH.
Qed.

Lemma dict_set_key {V : Type} (k : string) (v : V) (d : pydict V) :
  In k (dict_keys (dict_set k v d)).
Proof.
  induction d as [|[k' v'] d IH]; simpl; [now left|].
  destruct (String.eqb_spec k k') as [->|_]; simpl; [now left | now right].
Qed.

(** C6.  The keys of the returned mapping are the names of the files in the
    order of enumeration, and the three consumers follow it: the i-th
    section of the report, the i-th row of the table and the i-th tab are
    those of the i-th file. *)
Theorem outcomes_keep_enumeration_order
    (folder_path api_key : string) (fs : FS) (e : Ext)
    (processed_at : string) :
  NoDup (dict_keys fs) ->
  let pdf_files := glob_pdf folder_path (dict_keys fs) in
  pdf_files <> [] ->
  exists results,
    returned (run folder_path api_key fs e) = Some results
    /\ dict_keys results = map name pdf_files
    /\ (exists sections,
          combined_text results processed_at
          = Some (report_header processed_at +++ str_concat sections)
          /\ Forall2
               (fun pdf_path section =>
                  exists status data,
                    section = report_section (name pdf_path) status data)
               pdf_files sections)
    /\ (exists df,
          create_summary_table results = Some df
          /\ map (df_cell df "Factura") (df_rows df)
             = map Some (map name pdf_files))
    /\ (exists views,
          render_tabs results = Some views
          /\ map tab_text views = map name pdf_files).
Proof.
  intros ND. cbv zeta. intros NE.
  set (pdf_files := glob_pdf folder_path (dict_keys fs)) in *.
  set (results := map entry_of (tried api_key fs pdf_files e)).
  assert (Keys : dict_keys results = map name pdf_files)
    by apply attempts_keys.
  assert (NDk : NoDup (dict_keys results))
    by (rewrite Keys; now apply glob_pdf_names_NoDup).
  exists results. split; [now apply process_all_invoices_some|].
  split; [exact Keys|]. split; [|split].
  - exists (map section_of (dict_items results)). split.
    + apply combined_text_sections, entries_have_status_data.
    + unfold dict_items. clear NDk. revert Keys. generalize results.
      clear. induction pdf_files as [|f rest IH]; intros [|[k r] d] Keys;
        try discriminate; [constructor|].
      cbn [map dict_keys fst] in Keys. inversion Keys; subst.
      constructor; [|now apply IH].
      now exists (field "status" r), (field "data" r).
  - exists {| df_columns := summary_columns;
              df_rows := map summary_cells results |}.
    split.
    + apply create_summary_table_frame; [apply entries_have_fields|].
      intros E. apply NE. rewrite E in Keys.
      destruct pdf_files; [reflexivity | discriminate].
    + cbn [df_rows]. now rewrite summary_names, Keys.
  - destruct (tabs_loop_views results (entries_have_fields _))
      as [views [Hv [Ht _]]].
    exists views. split; [exact Hv|].
    rewrite Ht. exact Keys.
Qed.

(** C9.  The uploaded document, which has a plain file name, is written
    under that name in [PDF_FOLDER], no other file changes, and the result
    shown is that of [extract_iva_from_pdf] on the saved path, which reads
    back the uploaded bytes; it is the call a batch run makes for the file
    once it lists it. *)
Theorem uploaded_file_saved_then_extracted
    (api_key file_name : string) (buffer : list byte) (fs : FS) (e : Ext) :
  contains "/" file_name = false ->
  let saved_path := PDF_FOLDER +++ "/" +++ file_name in
  let done := on_upload_click messages_create api_key file_name buffer fs e in
  up_fs done = dict_set saved_path buffer fs
  /\ dict_get saved_path (up_fs done) = Some buffer
  /\ (forall p, p <> saved_path -> dict_get p (up_fs done) = dict_get p fs)
  /\ (up_result done, up_ext done)
     = extract_iva_from_pdf messages_create saved_path api_key (up_fs done) e
  /\ pdf_to_base64 (up_fs done) saved_path
     = Returned (standard_b64encode buffer)
  /\ (endswith ".pdf" file_name = true ->
      forall key e0,
        In saved_path
          (extract_calls (emitted (run PDF_FOLDER key (up_fs done) e0)))).
Proof.
  intros Plain. cbv zeta.
  assert (Fs : up_fs (on_upload_click messages_create api_key file_name
                        buffer fs e)
               = dict_set (PDF_FOLDER +++ "/" +++ file_name) buffer fs).
  { unfold on_upload_click. cbn [path_str path_div parent name].
    destruct (extract_iva_from_pdf messages_create _ api_key _ e) as [r e'].
    now destruct r. }
  rewrite Fs. split; [reflexivity|]. split; [apply dict_get_set_same|].
  split; [intros p N; now apply dict_get_set_other|]. split; [|split].
  - unfold on_upload_click. cbn [path_str path_div parent name].
    destruct (extract_iva_from_pdf messages_create _ api_key _ e) as [r e'].
    now destruct r.
  - unfold pdf_to_base64. now rewrite dict_get_set_same.
  - intros Pdf key e0. rewrite process_all_invoices_calls.
    change (PDF_FOLDER +++ "/" +++ file_name)
      with (path_str (path_div PDF_FOLDER file_name)) at 1.
    apply in_map, glob_pdf_finds; [apply dict_set_key | exact Plain | exact Pdf].
Qed.

(** C10, as the code has it.  Every record of a returned mapping has exactly
    the fields [status], [data] and [timestamp]; its status is [success] or
    [error]; the payload of an error is "Error: " followed by the message of
    the exception, so it is not empty.  The table builder reads these three
    fields of every record and nothing else; the report builder reads
    [status] and [data] of every record and nothing else.  Both are total on
    what the runner returns. *)
Theorem runner_records_and_their_readers
    (folder_path api_key : string) (fs : FS) (e : Ext)
    (processed_at : string) :
  NoDup (dict_keys fs) ->
  glob_pdf folder_path (dict_keys fs) <> [] ->
  exists results,
    returned (run folder_path api_key fs e) = Some results
    /\ (forall filename result, In (filename, result) results ->
          dict_keys result = outcome_fields
          /\ (dict_get "status" result = Some "success"
              \/ dict_get "status" result = Some "error")
          /\ (exists data,
                dict_get "data" result = Some data
                /\ (dict_get "status" result = Some "error" ->
                    data <> ""
                    /\ exists message, data = "Error: " +++ message))
          /\ (exists timestamp, dict_get "timestamp" result = Some timestamp))
    /\ (exists text, combined_text results processed_at = Some text)
    /\ (exists df, create_summary_table results = Some df)
    /\ (forall results', same_on outcome_fields results' results ->
          create_summary_table results' = create_summary_table results)
    /\ (forall f filename,
          In f outcome_fields -> In filename (dict_keys results) ->
          create_summary_table (without_field f filename results) = None)
    /\ (forall results', same_on ["status"; "data"] results' results ->
          combined_text results' processed_at
          = combined_text results processed_at)
    /\ (forall f filename,
          In f ["status"; "data"] -> In filename (dict_keys results) ->
          combined_text (without_field f filename results) processed_at
          = None).
Proof.
  intros ND NE.
  set (pdf_files := glob_pdf folder_path (dict_keys fs)) in *.
  set (results := map entry_of (tried api_key fs pdf_files e)).
  assert (Keys : dict_keys results = map name pdf_files)
    by apply attempts_keys.
  assert (NDk : NoDup (dict_keys results))
    by (rewrite Keys; now apply glob_pdf_names_NoDup).
  assert (NDr : Forall (fun kv => NoDup (dict_keys (snd kv))) results).
  { apply Forall_forall. intros kv I. apply in_map_iff in I.
    destruct I as [a [<- _]]. rewrite entry_of_fields.
    repeat constructor; simpl; intuition discriminate. }
  exists results. split; [now apply process_all_invoices_some|].
  split; [|split; [|split; [|split; [|split; [|split]]]]].
  - intros filename result I. apply in_map_iff in I.
    destruct I as [[[f [value|message]] ts] [E _]];
      inversion E; subst; cbn.
    + split; [reflexivity|]. split; [now left|]. split.
      * eexists. split; [reflexivity|]. discriminate.
      * now eexists.
    + split; [reflexivity|]. split; [now right|]. split.
      * eexists. split; [reflexivity|]. intros _.
        split; [discriminate | now exists message].
      * now eexists.
  - eexists. apply combined_text_sections, entries_have_status_data.
  - eexists. apply create_summary_table_rows, entries_have_fields.
  - intros results' S. unfold create_summary_table, dict_items.
    now rewrite (summary_loop_same_on _ _ [] S).
  - intros f filename F I. unfold create_summary_table, dict_items.
    rewrite (summary_loop_missing f); [reflexivity | exact F |].
    now apply without_field_missing.
  - intros results' S. unfold combined_text, dict_items.
    now apply report_loop_same_on.
  - intros f filename F I. unfold combined_text, dict_items.
    apply (report_loop_missing f); [exact F |].
    now apply without_field_missing.
Qed.

(** With no invoice in the folder the button reports it and the session
    keeps what it held. *)
Lemma on_process_click_empty_folder (ss : session_state) (api_key : string)
    (fs : FS) (e : Ext) :
  ss_api_key ss = Some api_key ->
  glob_pdf PDF_FOLDER (dict_keys fs) = [] ->
  on_process_click messages_create datetime_now ss fs e
  = (ss, [StError "❌ No hay facturas en la carpeta"], e).
Proof.
  intros K G. unfold on_process_click. now rewrite K, G.
Qed.

(** The result set a click stores is never empty. *)
Lemma on_process_click_stores_some (ss : session_state) (fs : FS) (e : Ext)
    (results : pydict outcome) :
  ss_results ss = None ->
  ss_results (returned (on_process_click messages_create datetime_now
                          ss fs e)) = Some results ->
  results <> [].
Proof.
  intros Old. unfold on_process_click.
  destruct (ss_api_key ss) as [api_key|];
    [|cbn; rewrite Old; discriminate].
  destruct (glob_pdf PDF_FOLDER (dict_keys fs)) as [|f rest] eqn:G;
    [cbn; rewrite Old; discriminate|].
  unfold process_all_invoices. rewrite G.
  pose proof (invoice_loop_some_file Ext messages_create datetime_now
                api_key fs (length (f :: rest)) 0 (f :: rest) [] e) as H.
  destruct (invoice_loop messages_create datetime_now api_key fs
              (length (f :: rest)) 0 (f :: rest) [] e)
    as [[final events] e3].
  destruct (datetime_now e3) as [now e4]. cbn.
  intros E. inversion E; subst. apply H. discriminate.
Qed.
End PageFacts.

(** ** The model at work *)

Lemma sample_fs_NoDup : NoDup (dict_keys sample_fs).
Proof. repeat constructor; simpl; intuition discriminate. Qed.

Lemma sample_results_NoDup : NoDup (dict_keys sample_results).
Proof. repeat constructor; simpl; intuition discriminate. Qed.

Lemma sample_results_fields :
  Forall (fun kv => has_fields outcome_fields (snd kv) = true) sample_results.
Proof. repeat constructor. Qed.

Lemma sample_results_status_data :
  Forall (fun kv => has_fields ["status"; "data"] (snd kv) = true)
    sample_results.
Proof. repeat constructor. Qed.

Lemma sample_folder_not_empty :
  glob_pdf "facturas" (dict_keys sample_fs) <> [].
Proof. vm_compute. discriminate. Qed.

(** The run of the sample folder: three files, three calls, three entries;
    the answer for A.pdf and the time-out of B.pdf are their records. *)
Lemma batch_runner_one_outcome_per_file_witness :
  NoDup (dict_keys sample_fs)
  /\ extract_calls (emitted sample_run)
     = ["facturas/A.pdf"; "facturas/B.pdf"; "facturas/C.pdf"]
  /\ exists results,
       returned sample_run = Some results
       /\ dict_len results = 3
       /\ dict_get "A.pdf" results
          = Some [("status", "success"); ("data", "IVA 19% ... TOTAL ...");
                  ("timestamp", "2025-03-14 09:26:58")]
       /\ dict_get "B.pdf" results
          = Some [("status", "error"); ("data", "Error: timeout");
                  ("timestamp", "2025-03-14 09:26:59")].
Proof.
  pose proof (batch_runner_one_outcome_per_file script scripted_create
                scripted_now "facturas" "sk-test" sample_fs mixed_world
                sample_fs_NoDup) as H.
  cbv zeta in H. destruct H as [Calls [_ H]].
  split; [exact sample_fs_NoDup|]. split; [exact Calls|].
  destruct (H sample_folder_not_empty) as [results [R [L [_ [Ok Err]]]]].
  exists results. split; [exact R|]. split; [exact L|]. split.
  - apply (Ok (path_div "facturas" "A.pdf") "IVA 19% ... TOTAL ..."
             "2025-03-14 09:26:58").
    vm_compute. left. reflexivity.
  - apply (Err (path_div "facturas" "B.pdf") "timeout"
             "2025-03-14 09:26:59").
    vm_compute. right. left. reflexivity.
Defined.

Lemma process_all_invoices_n_entries_witness :
  NoDup (dict_keys sample_fs)
  /\ exists results,
       returned sample_run = Some results
       /\ dict_len results = 3
       /\ dict_keys results = ["A.pdf"; "B.pdf"; "C.pdf"].
Proof.
  split; [exact sample_fs_NoDup|].
  destruct (process_all_invoices_n_entries script scripted_create
              scripted_now "facturas" "sk-test" sample_fs mixed_world
              sample_fs_NoDup sample_folder_not_empty)
    as [results [R [L [K _]]]].
  exists results. split; [exact R|]. split; [exact L | exact K].
Defined.

Lemma refusing_create_always_raises (pdf_path : string) (e0 : script) :
  exists message,
    fst (extract_iva_from_pdf refusing_create pdf_path "sk-wrong"
           sample_fs e0) = Raised message.
Proof.
  unfold extract_iva_from_pdf.
  destruct (pdf_to_base64 sample_fs pdf_path); eexists; reflexivity.
Qed.

(** Three files and a service that always refuses: three error entries. *)
Lemma always_failing_client_all_errors_witness :
  exists results,
    returned refused_run = Some results
    /\ dict_len results = 3
    /\ (forall filename result, In (filename, result) results ->
          dict_get "status" result = Some "error").
Proof.
  destruct (always_failing_client_all_errors script refusing_create
              scripted_now "facturas" "sk-wrong" sample_fs offline_world
              sample_fs_NoDup refusing_create_always_raises
              sample_folder_not_empty)
    as [results [R [L All]]].
  exists results. split; [exact R|]. split; [exact L|].
  intros filename result I. exact (proj1 (All filename result I)).
Defined.

(** The sample run: three status lines, each seen with the outcomes of the
    files before it and without its own. *)
Lemma progress_notifications_in_order_witness :
  status_indices (emitted sample_run) = [1; 2; 3]
  /\ filter is_status_or_insert (emitted sample_run)
     = [StatusText "A.pdf" 1 3; DictInsert "A.pdf";
        StatusText "B.pdf" 2 3; DictInsert "B.pdf";
        StatusText "C.pdf" 3 3; DictInsert "C.pdf"]
  /\ returned sample_run = Some (w_results sample_watched)
  /\ Forall seen_in_order (w_seen sample_watched)
  /\ map (fun seen => (fst seen, dict_keys (snd seen)))
       (filter (fun seen => match fst seen with
                            | StatusText _ _ _ | ProgressSet _ _ => true
                            | _ => false
                            end)
          (w_seen sample_watched))
     = [(StatusText "A.pdf" 1 3, []);
        (ProgressSet 1 3, ["A.pdf"]);
        (StatusText "B.pdf" 2 3, ["A.pdf"]);
        (ProgressSet 2 3, ["A.pdf"; "B.pdf"]);
        (StatusText "C.pdf" 3 3, ["A.pdf"; "B.pdf"]);
        (ProgressSet 3 3, ["A.pdf"; "B.pdf"; "C.pdf"])].
Proof.
  pose proof (progress_notifications_in_order script scripted_create
                scripted_now "facturas" "sk-test" sample_fs mixed_world)
    as H.
  cbv zeta in H. destruct H as [_ [Idx [Order [_ [_ [Ret Snap]]]]]].
  split; [exact Idx|]. split; [exact Order|]. split; [exact Ret|].
  split; [exact (proj1 (Snap sample_fs_NoDup)) | reflexivity].
Defined.

Lemma empty_folder_returns_None_witness :
  glob_pdf "facturas" (dict_keys notes_fs) = []
  /\ process_all_invoices scripted_create scripted_now
       "facturas" "sk-test" notes_fs mixed_world
     = (None, [], mixed_world).
Proof.
  split; [reflexivity|].
  apply (proj1 (empty_folder_returns_None script scripted_create
                  scripted_now "facturas" "sk-test" notes_fs mixed_world)).
  reflexivity.
Defined.

Lemma outcomes_keep_enumeration_order_witness :
  exists results,
    returned sample_run = Some results
    /\ dict_keys results = ["A.pdf"; "B.pdf"; "C.pdf"]
    /\ (exists views,
          render_tabs results = Some views
          /\ map tab_text views = ["A.pdf"; "B.pdf"; "C.pdf"]).
Proof.
  destruct (outcomes_keep_enumeration_order script scripted_create
              scripted_now "facturas" "sk-test" sample_fs mixed_world
              "2025-03-14 09:27:01" sample_fs_NoDup sample_folder_not_empty)
    as [results [R [K [_ [_ Tabs]]]]].
  exists results. split; [exact R|]. split; [exact K | exact Tabs].
Defined.

(** The same result set rendered in two sessions at different times: the
    same text, which opens with the title and the date of the run, under
    two file names. *)
Lemma text_report_deterministic_witness :
  option_map dl_data
    (ex_txt (fst (export_column scripted_now sample_session mixed_world)))
  = option_map dl_data
      (ex_txt (fst (export_column scripted_now later_session offline_world)))
  /\ option_map
       (startswith
          ("EXTRACCIÓN DE BASES DE IVA" +++ nl
           +++ "Fecha: 2025-03-14 09:27:01" +++ nl +++ nl
           +++ str_repeat "=" 80 +++ nl +++ nl +++ "FACTURA: A.pdf" +++ nl))
       (option_map dl_data
          (ex_txt
             (fst (export_column scripted_now sample_session mixed_world))))
     = Some true
  /\ option_map dl_file_name
       (ex_txt (fst (export_column scripted_now sample_session mixed_world)))
     = Some "bases_iva_20250314_092658.txt"
  /\ option_map dl_file_name
       (ex_txt (fst (export_column scripted_now later_session offline_world)))
     = Some "bases_iva_20250314_092600.txt".
Proof.
  pose proof (text_report_deterministic script script scripted_now
                scripted_now sample_session later_session mixed_world
                offline_world sample_results "2025-03-14 09:27:01"
                eq_refl eq_refl eq_refl eq_refl) as [Same [Text Shape]].
  split; [exact Same|]. split; [|split; reflexivity].
  rewrite Text, (Shape sample_results_status_data). reflexivity.
Defined.

Lemma summary_table_one_row_per_outcome_witness :
  exists df,
    create_summary_table sample_results = Some df
    /\ length (df_rows df) = 3
    /\ df_columns df = summary_columns
    /\ map (df_cell df "Factura") (df_rows df)
       = [Some "A.pdf"; Some "B.pdf"; Some "C.pdf"].
Proof.
  destruct (summary_table_one_row_per_outcome sample_results
              sample_results_NoDup sample_results_fields)
    as [df [T [L [C [_ [N _]]]]]].
  exists df. split; [exact T|]. split; [exact L|].
  split; [apply C; discriminate | exact N].
Defined.

Lemma uploaded_file_saved_then_extracted_witness :
  contains "/" "D.pdf" = false
  /\ dict_get "facturas/D.pdf"
       (up_fs (on_upload_click scripted_create "sk-test" "D.pdf"
                 (list_byte_of_string "%PDF-D") sample_fs mixed_world))
     = Some (list_byte_of_string "%PDF-D")
  /\ In "facturas/D.pdf"
       (extract_calls
          (emitted
             (process_all_invoices scripted_create scripted_now
                PDF_FOLDER "sk-test"
                (up_fs (on_upload_click scripted_create "sk-test" "D.pdf"
                          (list_byte_of_string "%PDF-D") sample_fs
                          mixed_world))
                offline_world))).
Proof.
  pose proof (uploaded_file_saved_then_extracted script scripted_create
                scripted_now "sk-test" "D.pdf"
                (list_byte_of_string "%PDF-D") sample_fs mixed_world
                eq_refl) as H.
  cbv zeta in H. destruct H as [_ [Saved [_ [_ [_ Listed]]]]].
  split; [reflexivity|]. split; [exact Saved|].
  exact (Listed eq_refl "sk-test" offline_world).
Defined.

Lemma runner_records_and_their_readers_witness :
  exists results,
    returned sample_run = Some results
    /\ (exists text,
          combined_text results "2025-03-14 09:27:01" = Some text)
    /\ create_summary_table (without_field "timestamp" "B.pdf" results)
       = None
    /\ combined_text (without_field "data" "B.pdf" results)
         "2025-03-14 09:27:01" = None.
Proof.
  destruct (runner_records_and_their_readers script scripted_create
              scripted_now "facturas" "sk-test" sample_fs mixed_world
              "2025-03-14 09:27:01" sample_fs_NoDup sample_folder_not_empty)
    as [results [R [_ [Text [_ [_ [Table [_ Report]]]]]]]].
  assert (K : In "B.pdf" (dict_keys results)).
  { vm_compute in R. inversion R. vm_compute. right. left. reflexivity. }
  exists results. split; [exact R|]. split; [exact Text|]. split.
  - apply Table; [simpl; tauto | exact K].
  - apply Report; [simpl; tauto | exact K].
Defined.

(** C10, as stated, fails on the report builder: it does not read the time
    stamp.  With the time stamp of B.pdf deleted from what the sample run
    returned, the report is the same text, while the table builder stops on
    the missing field. *)
Lemma report_builder_does_not_read_timestamp :
  returned sample_run = Some sample_results
  /\ dict_get "timestamp"
       (field_record "B.pdf"
          (without_field "timestamp" "B.pdf" sample_results)) = None
  /\ (exists text,
        combined_text sample_results "2025-03-14 09:27:01" = Some text
        /\ combined_text (without_field "timestamp" "B.pdf" sample_results)
             "2025-03-14 09:27:01" = Some text)
  /\ create_summary_table (without_field "timestamp" "B.pdf" sample_results)
     = None.
Proof.
  split; [reflexivity|]. split; [reflexivity|]. split; [|reflexivity].
  eexists. split; reflexivity.
Qed.

(** * Further properties of the page *)

(** ** What a batch run sends to the outside *)

Lemma dict_get_present {V : Type} (k : string) (d : pydict V) :
  In k (dict_keys d) -> exists v, dict_get k d = Some v.
Proof.
  intros I. destruct (dict_get k d) as [v|] eqn:E; [now exists v|].
  apply dict_get_None in E. contradiction.
Qed.

Lemma glob_pdf_on_disk (folder : string) (fs : FS) :
  Forall (fun f => dict_get (path_str f) fs
                   = Some (file_content fs (path_str f)))
    (glob_pdf folder (dict_keys fs)).
Proof.
  apply Forall_forall. intros f I.
  apply glob_pdf_parent in I. destruct I as [_ I].
  destruct (dict_get_present _ _ I) as [content E].
  unfold file_content. now rewrite E.
Qed.

Section OutsideFacts.
Variable Ext : Type.
Variable messages_create : string -> request -> Ext -> api_reply * Ext.
Variable datetime_now : Ext -> datetime * Ext.

Local Abbreviation extract := (extract_iva_from_pdf messages_create).
Local Abbreviation extract_logged :=
  (extract_iva_from_pdf (logged_create messages_create)).
Local Abbreviation run := (process_all_invoices messages_create datetime_now).
Local Abbreviation run_logged :=
  (process_all_invoices (logged_create messages_create)
     (logged_now datetime_now)).

Lemma extract_logged_step (pdf_path api_key : string) (fs : FS) (e : Ext)
    (journal : list ext_event) :
  extract_logged pdf_path api_key fs (e, journal)
  = (fst (extract pdf_path api_key fs e),
     (snd (extract pdf_path api_key fs e),
      journal ++ extraction_journal api_key fs pdf_path)).
Proof.
  unfold extract_iva_from_pdf, pdf_to_base64, extraction_journal.
  destruct (dict_get pdf_path fs) as [content|]; cbn [fst snd].
  - unfold logged_create. cbn [fst snd].
    fold (document_request (standard_b64encode content)).
    destruct (messages_create api_key
                (document_request (standard_b64encode content)) e)
      as [[[|block rest]|err] e']; reflexivity.
  - now rewrite app_nil_r.
Qed.

Lemma invoice_loop_logged (api_key : string) (fs : FS) (total idx : nat)
    (pdf_files : list Path) (results : pydict outcome) (e : Ext)
    (journal : list ext_event) :
  invoice_loop (logged_create messages_create) (logged_now datetime_now)
    api_key fs total idx pdf_files results (e, journal)
  = (returned (invoice_loop messages_create datetime_now api_key fs total
                 idx pdf_files results e),
     emitted (invoice_loop messages_create datetime_now api_key fs total
                idx pdf_files results e),
     (ext_after (invoice_loop messages_create datetime_now api_key fs total
                   idx pdf_files results e),
      journal
      ++ flat_map (fun f => extraction_journal api_key fs (path_str f)
                            ++ [ClockRead])
           pdf_files)).
Proof.
  revert idx results e journal.
  induction pdf_files as [|f rest IH]; intros idx results e journal.
  - cbn. now rewrite app_nil_r.
  - cbn [invoice_loop flat_map]. rewrite extract_logged_step.
    destruct (extract (path_str f) api_key fs e) as [r e1]. cbn [fst snd].
    unfold logged_now at 1. cbn [fst snd].
    destruct (datetime_now e1) as [now e2].
    rewrite IH.
    destruct (invoice_loop messages_create datetime_now api_key fs total
                (S idx) rest _ e2) as [[final events] e3].
    unfold returned, emitted, ext_after. cbn [fst snd].
    now rewrite <- !app_assoc.
Qed.

Lemma journal_of_files (api_key : string) (fs : FS) (pdf_files : list Path) :
  Forall (fun f => dict_get (path_str f) fs
                   = Some (file_content fs (path_str f))) pdf_files ->
  flat_map (fun f => extraction_journal api_key fs (path_str f)
                     ++ [ClockRead]) pdf_files
  = flat_map
      (fun f =>
         [Requested api_key
            (document_request
               (standard_b64encode (file_content fs (path_str f))));
          ClockRead])
      pdf_files.
Proof.
  induction 1 as [|f rest Hf _ IH]; [reflexivity|].
  cbn [flat_map]. rewrite IH. unfold extraction_journal. now rewrite Hf.
Qed.

Lemma process_all_invoices_logged (folder_path api_key : string) (fs : FS)
    (e : Ext) (journal : list ext_event) :
  run_logged folder_path api_key fs (e, journal)
  = (returned (run folder_path api_key fs e),
     emitted (run folder_path api_key fs e),
     (ext_after (run folder_path api_key fs e),
      journal
      ++ flat_map
           (fun f =>
              [Requested api_key
                 (document_request
                    (standard_b64encode (file_content fs (path_str f))));
               ClockRead])
           (glob_pdf folder_path (dict_keys fs)))).
Proof.
  unfold process_all_invoices.
  pose proof (glob_pdf_on_disk folder_path fs) as Disk.
  destruct (glob_pdf folder_path (dict_keys fs)) as [|f rest] eqn:G.
  - cbn. now rewrite app_nil_r.
  - rewrite invoice_loop_logged, (journal_of_files _ _ _ Disk).
    destruct (invoice_loop messages_create datetime_now api_key fs
                (length (f :: rest)) 0 (f :: rest) [] e)
      as [[final events] e3].
    reflexivity.
Qed.

(** X2.  A batch run makes one request per file and no other: in the order
    of enumeration, each with the key it was given, the fixed model, token
    limit and prompt, and the base64 text of that file; after each request
    it reads the clock once, before the next request.  A failed call is not
    repeated and does not stop the later ones.  Keeping the journal changes
    nothing of what the run returns or shows. *)
Theorem batch_sends_one_request_per_file
    (folder_path api_key : string) (fs : FS) (e : Ext)
    (journal : list ext_event) :
  let pdf_files := glob_pdf folder_path (dict_keys fs) in
  let plain := run folder_path api_key fs e in
  let logged := run_logged folder_path api_key fs (e, journal) in
  returned logged = returned plain
  /\ emitted logged = emitted plain
  /\ fst (ext_after logged) = ext_after plain
  /\ snd (ext_after logged)
     = journal
       ++ flat_map
            (fun f =>
               [Requested api_key
                  {| req_model := "claude-sonnet-4-20250514";
                     req_max_tokens := 2000;
                     req_media_type := "application/pdf";
                     req_document_data :=
                       standard_b64encode (file_content fs (path_str f));
                     req_text := PROMPT_EXTRACCION_IVA |};
                ClockRead])
            pdf_files.
Proof.
  cbv zeta. rewrite process_all_invoices_logged. now repeat split.
Qed.

(** X3.  One extraction sends at most one request: none when the file is
    missing, in which case it raises the error of [open] that names the path
    and leaves the outside untouched; exactly one, with the bytes of the
    file, otherwise.  An empty reply raises "list index out of range". *)
Theorem extraction_sends_at_most_one_request
    (pdf_path api_key : string) (fs : FS) (e : Ext)
    (journal : list ext_event) :
  extract_logged pdf_path api_key fs (e, journal)
  = (fst (extract pdf_path api_key fs e),
     (snd (extract pdf_path api_key fs e),
      journal
      ++ match dict_get pdf_path fs with
         | Some content =>
             [Requested api_key
                (document_request (standard_b64encode content))]
         | None => []
         end))
  /\ (dict_get pdf_path fs = None ->
      extract pdf_path api_key fs e = (Raised (no_such_file pdf_path), e))
  /\ (forall content e',
        dict_get pdf_path fs = Some content ->
        messages_create api_key
          (document_request (standard_b64encode content)) e
        = (ApiMessage [], e') ->
        extract pdf_path api_key fs e
        = (Raised "list index out of range", e')).
Proof.
  split; [apply extract_logged_step|].
  unfold extract_iva_from_pdf, pdf_to_base64. split.
  - now intros ->.
  - intros content e' -> H.
    fold (document_request (standard_b64encode content)). now rewrite H.
Qed.
End OutsideFacts.

(** ** The outcomes of a run and what the page shows of them *)

Lemma entry_of_attempt (f : Path) (r : py_result string) (ts : string) :
  entry_of (f, r, ts)
  = (name f,
     [("status", result_status r); ("data", result_payload r);
      ("timestamp", ts)]).
Proof. now destruct r. Qed.

Lemma progress_values_app (l1 l2 : list event) :
  progress_values (l1 ++ l2) = progress_values l1 ++ progress_values l2.
Proof.
  induction l1 as [|ev l1 IH]; simpl; [reflexivity|].
  destruct ev; simpl; now rewrite IH.
Qed.

Lemma progress_values_iterations (total idx : nat) (pdf_files : list Path) :
  progress_values
    (flat_map (iteration_events total) (enumerate_from idx pdf_files))
  = map (fun k => (k, total)) (seq (idx + 1) (length pdf_files)).
Proof.
  revert idx. induction pdf_files as [|f rest IH]; intros idx; simpl;
    [reflexivity|].
  rewrite IH. now replace (S idx + 1) with (S (idx + 1)) by lia.
Qed.

Lemma count_success_bounds (values : list outcome) (total s : nat) :
  count_success values total = Some s ->
  total <= s /\ s <= total + length values.
Proof.
  revert total. induction values as [|r rest IH]; intros total; simpl.
  - intros E; inversion E; lia.
  - unfold opt_bind. destruct (dict_get "status" r) as [status|];
      [|discriminate].
    intros E. apply IH in E.
    destruct (String.eqb status "success"); lia.
Qed.

Lemma count_success_entries (l : list (Path * py_result string * string))
    (total : nat) :
  count_success (dict_values (map entry_of l)) total
  = Some (total + length (filter is_returned l)).
Proof.
  revert total. induction l as [|[[f r] ts] rest IH]; intros total.
  - cbn. f_equal. lia.
  - cbn [map dict_values snd]. rewrite entry_of_attempt.
    cbn [snd count_success dict_get]. cbn [String.eqb Ascii.eqb Bool.eqb].
    unfold opt_bind. unfold dict_values in IH.
    destruct r as [result|message];
      cbn [result_status filter is_returned fst snd length];
      rewrite IH;
      first [ rewrite String.eqb_refl
            | change (String.eqb "error" "success") with false ];
      cbv iota; f_equal; lia.
Qed.

Lemma filter_partition_length {A : Type} (p : A -> bool) (l : list A) :
  length (filter p l) + length (filter (fun a => negb (p a)) l) = length l.
Proof.
  induction l as [|a l IH]; simpl; [reflexivity|].
  destruct (p a); simpl; lia.
Qed.

Section OutcomeFacts.
Variable Ext : Type.
Variable messages_create : string -> request -> Ext -> api_reply * Ext.
Variable datetime_now : Ext -> datetime * Ext.

Local Abbreviation extract := (extract_iva_from_pdf messages_create).
Local Abbreviation run := (process_all_invoices messages_create datetime_now).
Local Abbreviation tried := (attempts messages_create datetime_now).

(** X4.  When the service answers every request with a message that has a
    first block, the run over N > 0 files returns N entries, all with status
    [success], each holding the text its extraction returned. *)
Theorem always_answering_service_all_success
    (folder_path api_key : string) (fs : FS) (e : Ext) :
  NoDup (dict_keys fs) ->
  (forall req e0,
      exists block rest e1,
        messages_create api_key req e0 = (ApiMessage (block :: rest), e1)) ->
  let pdf_files := glob_pdf folder_path (dict_keys fs) in
  pdf_files <> [] ->
  exists results,
    returned (run folder_path api_key fs e) = Some results
    /\ dict_len results = length pdf_files
    /\ Forall (fun kv => dict_get "status" (snd kv) = Some "success") results
    /\ Forall2
         (fun a kv =>
            fst kv = name (fst (fst a))
            /\ dict_get "data" (snd kv) = Some (result_payload (snd (fst a)))
            /\ exists text, snd (fst a) = Returned text)
         (tried api_key fs pdf_files e) results.
Proof.
  intros ND Answers. cbv zeta. intros NE.
  exists (map entry_of
            (tried api_key fs (glob_pdf folder_path (dict_keys fs)) e)).
  split; [now apply process_all_invoices_some|].
  split; [unfold dict_len; rewrite length_map; apply attempts_length|].
  clear NE. pose proof (glob_pdf_on_disk folder_path fs) as Disk.
  generalize e as e0.
  induction Disk as [|f rest Hf _ IH]; intros e0; cbn [attempts map];
    [split; constructor|].
  assert (Hx : exists text e1,
             extract (path_str f) api_key fs e0 = (Returned text, e1)).
  { unfold extract_iva_from_pdf, pdf_to_base64. rewrite Hf.
    destruct (Answers
                {| req_model := "claude-sonnet-4-20250514";
                   req_max_tokens := 2000;
                   req_media_type := "application/pdf";
                   req_document_data :=
                     standard_b64encode (file_content fs (path_str f));
                   req_text := PROMPT_EXTRACCION_IVA |} e0)
      as [block [more [e1 Hm]]].
    rewrite Hm. now exists block, e1. }
  destruct Hx as [text [e1 Hx]]. rewrite Hx.
  destruct (datetime_now e1) as [now e2]. cbn [map].
  destruct (IH e2) as [IH1 IH2].
  split; constructor; try assumption.
  - reflexivity.
  - cbn. split; [reflexivity|]. split; [reflexivity | now exists text].
Qed.

(** X5.  The values given to the progress bar are k/N for k = 1, ..., N in
    this order: the denominator is never zero, every value lies in (0, 1],
    and the last one fills the bar. *)
Theorem progress_bar_values_valid
    (folder_path api_key : string) (fs : FS) (e : Ext) :
  let total := length (glob_pdf folder_path (dict_keys fs)) in
  let values :=
    progress_values (emitted (run folder_path api_key fs e)) in
  values = map (fun k => (k, total)) (seq 1 total)
  /\ Forall (fun v => 0 < fst v /\ fst v <= snd v /\ snd v = total) values
  /\ (values = [] \/ last values (0, 0) = (total, total)).
Proof.
  cbv zeta.
  assert (V : progress_values (emitted (run folder_path api_key fs e))
              = map (fun k => (k, length (glob_pdf folder_path
                                            (dict_keys fs))))
                  (seq 1 (length (glob_pdf folder_path (dict_keys fs))))).
  { pose proof (process_all_invoices_events Ext messages_create datetime_now
                  folder_path api_key fs e) as Ev.
    pose proof (process_all_invoices_none Ext messages_create datetime_now
                  folder_path api_key fs e) as No.
    destruct (glob_pdf folder_path (dict_keys fs)) as [|f rest] eqn:G.
    - now rewrite No.
    - rewrite Ev by discriminate.
      simpl progress_values at 1.
      rewrite progress_values_app, progress_values_iterations.
      simpl. now rewrite app_nil_r. }
  rewrite V. split; [reflexivity|]. split.
  - apply Forall_forall. intros v I. apply in_map_iff in I.
    destruct I as [k [<- I]]. apply in_seq in I. cbn. lia.
  - destruct (length (glob_pdf folder_path (dict_keys fs))) as [|n];
      [now left | right].
    rewrite seq_S, map_app. cbn [map]. now rewrite last_last.
Qed.

(** X6.  The two counters of the results block: the successes are the
    attempts that returned, the errors those that raised, and together they
    are the number of files. *)
Theorem counters_match_attempts
    (folder_path api_key : string) (fs : FS) (e : Ext) :
  NoDup (dict_keys fs) ->
  let pdf_files := glob_pdf folder_path (dict_keys fs) in
  let tries := tried api_key fs pdf_files e in
  pdf_files <> [] ->
  exists results,
    returned (run folder_path api_key fs e) = Some results
    /\ success_count results = Some (length (filter is_returned tries))
    /\ error_count results
       = Some (length (filter (fun a => negb (is_returned a)) tries))
    /\ length (filter is_returned tries)
       + length (filter (fun a => negb (is_returned a)) tries)
       = length pdf_files.
Proof.
  intros ND. cbv zeta. intros NE.
  set (tries := tried api_key fs (glob_pdf folder_path (dict_keys fs)) e).
  exists (map entry_of tries).
  pose proof (filter_partition_length is_returned tries) as P.
  assert (S : success_count (map entry_of tries)
              = Some (length (filter is_returned tries)))
    by (unfold success_count; now rewrite count_success_entries).
  split; [now apply process_all_invoices_some|].
  split; [exact S|]. split.
  - unfold error_count. rewrite S. unfold opt_bind, dict_len.
    rewrite length_map. f_equal. lia.
  - rewrite P. apply attempts_length.
Qed.
End OutcomeFacts.

(** X7.  On any mapping the counters add up: when the successes can be
    counted they are at most the number of entries, and the errors are the
    rest, whatever their status says; a record without a status stops both
    counts. *)
Theorem counters_add_up (results : pydict outcome) :
  match success_count results with
  | Some successes =>
      successes <= dict_len results
      /\ error_count results = Some (dict_len results - successes)
      /\ Forall (fun kv => dict_mem "status" (snd kv) = true) results
  | None =>
      error_count results = None
      /\ Exists (fun kv => dict_get "status" (snd kv) = None) results
  end.
Proof.
  unfold error_count.
  destruct (success_count results) as [s|] eqn:E; unfold opt_bind.
  - split; [|split; [reflexivity|]].
    + unfold success_count in E. apply count_success_bounds in E.
      unfold dict_len, dict_values in *. rewrite length_map in E. lia.
    + unfold success_count in E. revert E. generalize 0.
      induction results as [|[k r] rest IH]; intros total E; [constructor|].
      cbn [dict_values map snd count_success] in E. unfold opt_bind in E.
      unfold dict_mem. cbn [snd].
      destruct (dict_get "status" r) as [status|] eqn:G; [|discriminate].
      constructor; [cbn; now rewrite G|]. exact (IH _ E).
  - split; [reflexivity|].
    unfold success_count in E. revert E. generalize 0.
    induction results as [|[k r] rest IH]; intros total E; [discriminate|].
    cbn [dict_values map snd count_success] in E. unfold opt_bind in E.
    destruct (dict_get "status" r) as [status|] eqn:G.
    + apply Exists_cons_tl. exact (IH _ E).
    + now apply Exists_cons_hd.
Qed.

(** ** The button, the exports and the tabs *)

Lemma iterations_no_error (total idx : nat) (pdf_files : list Path) :
  filter is_error_event
    (flat_map (iteration_events total) (enumerate_from idx pdf_files)) = [].
Proof.
  revert idx. induction pdf_files as [|f rest IH]; intros idx; simpl;
    [reflexivity | apply IH].
Qed.

Lemma section_of_entry (a : Path * py_result string * string) :
  section_of (entry_of a) = attempt_section a.
Proof. now destruct a as [[f [result|message]] ts]. Qed.

Lemma summary_cells_entry (a : Path * py_result string * string) :
  summary_cells (entry_of a) = attempt_cells a.
Proof. now destruct a as [[f [result|message]] ts]. Qed.


Lemma glob_pdf_app (folder : string) (l1 l2 : list string) :
  glob_pdf folder (l1 ++ l2) = glob_pdf folder l1 ++ glob_pdf folder l2.
Proof.
  induction l1 as [|p l1 IH]; cbn [app glob_pdf]; [reflexivity|].
  destruct (pdf_name_in folder p); cbn [app]; now rewrite IH.
Qed.

Lemma dict_mem_keys {V : Type} (k : string) (d : pydict V) :
  dict_mem k d = false <-> ~ In k (dict_keys d).
Proof.
  unfold dict_mem. rewrite dict_get_None.
  destruct (dict_get k d); split; intros H; congruence.
Qed.

Lemma dict_set_NoDup {V : Type} (k : string) (v : V) (d : pydict V) :
  NoDup (dict_keys d) -> NoDup (dict_keys (dict_set k v d)).
Proof.
  intros ND. rewrite dict_keys_set.
  destruct (dict_mem k d) eqn:M; [exact ND|].
  apply dict_mem_keys in M.
  apply NoDup_app; [exact ND | repeat constructor; intros [] |].
  intros x I [<-|[]]. contradiction.
Qed.

Section ButtonFacts.
Variable Ext : Type.
Variable messages_create : string -> request -> Ext -> api_reply * Ext.
Variable datetime_now : Ext -> datetime * Ext.

Local Abbreviation run := (process_all_invoices messages_create datetime_now).
Local Abbreviation tried := (attempts messages_create datetime_now).
Local Abbreviation click := (on_process_click messages_create datetime_now).

Lemma run_shows_no_error (folder_path api_key : string) (fs : FS) (e : Ext) :
  filter is_error_event (emitted (run folder_path api_key fs e)) = [].
Proof.
  pose proof (process_all_invoices_events Ext messages_create datetime_now
                folder_path api_key fs e) as Ev.
  pose proof (process_all_invoices_none Ext messages_create datetime_now
                folder_path api_key fs e) as No.
  destruct (glob_pdf folder_path (dict_keys fs)) as [|f rest] eqn:G.
  - now rewrite No.
  - rewrite Ev by discriminate. simpl filter at 1.
    now rewrite filter_app, iterations_no_error.
Qed.

Lemma on_process_click_run (ss : session_state) (api_key : string)
    (fs : FS) (e : Ext) (results : pydict outcome) :
  ss_api_key ss = Some api_key ->
  glob_pdf PDF_FOLDER (dict_keys fs) <> [] ->
  returned (run PDF_FOLDER api_key fs e) = Some results ->
  click ss fs e
  = ({| ss_api_key := Some api_key;
        ss_results := Some results;
        ss_processed_at :=
          Some (strftime_timestamp
                  (fst (datetime_now
                          (ext_after (run PDF_FOLDER api_key fs e))))) |},
     emitted (run PDF_FOLDER api_key fs e)
     ++ [StSuccess ("✅ Procesamiento completado: "
                    +++ str_of_nat (dict_len results) +++ " facturas")],
     snd (datetime_now (ext_after (run PDF_FOLDER api_key fs e)))).
Proof.
  intros K NE R. unfold on_process_click. rewrite K.
  destruct (glob_pdf PDF_FOLDER (dict_keys fs)) as [|f rest];
    [contradiction|].
  destruct (run PDF_FOLDER api_key fs e) as [[ret events] e1].
  unfold returned, emitted, ext_after in *. cbn [fst snd] in *. subst ret.
  now destruct (datetime_now e1) as [now e2].
Qed.

(** X8.  A click on "Procesar todas las facturas" with a key and a folder
    that holds invoices replaces what the session held: the results are the
    mapping the run returned, one entry per file; [processed_at] is the
    clock read once, after the last item; the key is kept. *)
Theorem click_replaces_the_result_set
    (ss : session_state) (api_key : string) (fs : FS) (e : Ext) :
  NoDup (dict_keys fs) ->
  ss_api_key ss = Some api_key ->
  let pdf_files := glob_pdf PDF_FOLDER (dict_keys fs) in
  pdf_files <> [] ->
  exists results,
    returned (run PDF_FOLDER api_key fs e) = Some results
    /\ dict_keys results = map name pdf_files
    /\ returned (click ss fs e)
       = {| ss_api_key := Some api_key;
            ss_results := Some results;
            ss_processed_at :=
              Some (strftime_timestamp
                      (fst (datetime_now
                              (ext_after (run PDF_FOLDER api_key fs e))))) |}
    /\ ext_after (click ss fs e)
       = snd (datetime_now (ext_after (run PDF_FOLDER api_key fs e))).
Proof.
  intros ND K. cbv zeta. intros NE.
  pose proof (process_all_invoices_some Ext messages_create datetime_now
                PDF_FOLDER api_key fs e ND NE) as R.
  eexists. split; [exact R|]. split; [apply attempts_keys|].
  now rewrite (on_process_click_run ss api_key fs e _ K NE R).
Qed.

(** X9.  What such a click shows is what the run shows, followed by the
    message of completion with the number of files; it shows no error
    message, whatever the extractions gave, also when every call was
    refused. *)
Theorem click_reports_completion
    (ss : session_state) (api_key : string) (fs : FS) (e : Ext) :
  NoDup (dict_keys fs) ->
  ss_api_key ss = Some api_key ->
  let pdf_files := glob_pdf PDF_FOLDER (dict_keys fs) in
  pdf_files <> [] ->
  emitted (click ss fs e)
  = emitted (run PDF_FOLDER api_key fs e)
    ++ [StSuccess ("✅ Procesamiento completado: "
                   +++ str_of_nat (length pdf_files) +++ " facturas")]
  /\ filter is_error_event (emitted (click ss fs e)) = [].
Proof.
  intros ND K. cbv zeta. intros NE.
  pose proof (process_all_invoices_some Ext messages_create datetime_now
                PDF_FOLDER api_key fs e ND NE) as R.
  assert (E : emitted (click ss fs e)
              = emitted (run PDF_FOLDER api_key fs e)
                ++ [StSuccess
                      ("✅ Procesamiento completado: "
                       +++ str_of_nat
                             (length (glob_pdf PDF_FOLDER (dict_keys fs)))
                       +++ " facturas")]).
  { rewrite (on_process_click_run ss api_key fs e _ K NE R).
    unfold dict_len. rewrite length_map, attempts_length. reflexivity. }
  split; [exact E|].
  rewrite E, filter_app, run_shows_no_error. reflexivity.
Qed.

(** X10.  The report and the table built from what a run returned show, for
    each file in the order of enumeration, the status and the payload of its
    own attempt: the text the extraction returned, or "Error: " and the
    message of what it raised; the table adds the time stamp. *)
Theorem exports_show_the_attempts
    (folder_path api_key : string) (fs : FS) (e : Ext)
    (processed_at : string) :
  NoDup (dict_keys fs) ->
  let pdf_files := glob_pdf folder_path (dict_keys fs) in
  let tries := tried api_key fs pdf_files e in
  pdf_files <> [] ->
  exists results,
    returned (run folder_path api_key fs e) = Some results
    /\ combined_text results processed_at
       = Some (report_header processed_at
               +++ str_concat (map attempt_section tries))
    /\ create_summary_table results
       = Some {| df_columns := summary_columns;
                 df_rows := map attempt_cells tries |}.
Proof.
  intros ND. cbv zeta. intros NE.
  set (tries := tried api_key fs (glob_pdf folder_path (dict_keys fs)) e).
  exists (map entry_of tries).
  split; [now apply process_all_invoices_some|]. split.
  - rewrite combined_text_sections by apply entries_have_status_data.
    unfold dict_items. rewrite map_map.
    do 3 f_equal. apply map_ext, section_of_entry.
  - rewrite create_summary_table_frame.
    + rewrite map_map. do 2 f_equal. apply map_ext, summary_cells_entry.
    + apply entries_have_fields.
    + intros E. apply NE. apply (f_equal (@length _)) in E.
      rewrite length_map in E. subst tries.
      rewrite attempts_length in E.
      now destruct (glob_pdf folder_path (dict_keys fs)).
Qed.

End ButtonFacts.

(** ** The exports of a click, the upload and the key *)

Lemma length_append (a b : string) :
  String.length (a +++ b) = String.length a + String.length b.
Proof.
  induction a as [|x a IH]; simpl; [reflexivity | now rewrite IH].
Qed.

Lemma b64_digit_length (i : N) : String.length (b64_digit i) = 1.
Proof.
  unfold b64_digit.
  assert (H : N.to_nat (i mod 64) < 64).
  { pose proof (N.mod_upper_bound i 64 ltac:(discriminate)). lia. }
  revert H. generalize (N.to_nat (i mod 64)) as n. intros n H.
  do 64 (destruct n as [|n]; [reflexivity|]). lia.
Qed.

Lemma by_three {A : Type} (P : list A -> Prop) :
  P [] -> (forall a, P [a]) -> (forall a b, P [a; b]) ->
  (forall a b c rest, P rest -> P (a :: b :: c :: rest)) ->
  forall l, P l.
Proof.
  intros P0 P1 P2 P3.
  assert (H : forall l, P l /\ (forall a, P (a :: l))
                        /\ (forall a b, P (a :: b :: l))).
  { induction l as [|x l [IH0 [IH1 IH2]]].
    - repeat split; auto.
    - repeat split; auto. }
  intros l. apply H.
Qed.

Lemma standard_b64encode_length (bs : list byte) :
  String.length (standard_b64encode bs) = 4 * ((length bs + 2) / 3).
Proof.
  induction bs as [| a | a b | a b c rest IH] using by_three.
  - reflexivity.
  - cbn [standard_b64encode].
    now rewrite !length_append, !b64_digit_length.
  - cbn [standard_b64encode].
    now rewrite !length_append, !b64_digit_length.
  - cbn [standard_b64encode].
    rewrite !length_append, !b64_digit_length, IH. cbn [length].
    replace (S (S (S (length rest))) + 2) with (1 * 3 + (length rest + 2))
      by lia.
    rewrite Nat.div_add_l by discriminate. lia.
Qed.

Lemma glob_pdf_single (folder n : string) :
  contains "/" n = false -> endswith ".pdf" n = true ->
  glob_pdf folder [folder +++ "/" +++ n] = [path_div folder n].
Proof.
  intros Hs He. cbn [glob_pdf].
  now rewrite (pdf_name_in_complete folder n Hs He).
Qed.

Section UploadFacts.
Variable Ext : Type.
Variable messages_create : string -> request -> Ext -> api_reply * Ext.
Variable datetime_now : Ext -> datetime * Ext.

Local Abbreviation run := (process_all_invoices messages_create datetime_now).
Local Abbreviation tried := (attempts messages_create datetime_now).
Local Abbreviation click := (on_process_click messages_create datetime_now).
Local Abbreviation upload := (on_upload_click messages_create).

Lemma on_upload_click_fs (api_key file_name : string) (buffer : list byte)
    (fs : FS) (e : Ext) :
  up_fs (upload api_key file_name buffer fs e)
  = dict_set (PDF_FOLDER +++ "/" +++ file_name) buffer fs.
Proof.
  unfold on_upload_click. cbn [path_str path_div parent name].
  destruct (extract_iva_from_pdf messages_create _ api_key _ e) as [r e'].
  now destruct r.
Qed.

Lemma process_all_invoices_returns (folder_path api_key : string) (fs : FS)
    (e : Ext) :
  glob_pdf folder_path (dict_keys fs) <> [] ->
  exists results, returned (run folder_path api_key fs e) = Some results.
Proof.
  intros NE. unfold process_all_invoices.
  destruct (glob_pdf folder_path (dict_keys fs)) as [|f rest];
    [contradiction|].
  destruct (invoice_loop messages_create datetime_now api_key fs
              (length (f :: rest)) 0 (f :: rest) [] e)
    as [[final events] e3].
  now exists final.
Qed.

(** X12.  After such a click the export column offers both downloads and
    stops on no missing field: the text is the report of the attempts under
    the stored [processed_at], the sheet "Resumen" holds one row per file
    under the four columns, and the two file names carry the clock read
    when each button is drawn. *)
Theorem exports_after_a_click
    (ss : session_state) (api_key : string) (fs : FS) (e e' : Ext) :
  NoDup (dict_keys fs) ->
  ss_api_key ss = Some api_key ->
  let pdf_files := glob_pdf PDF_FOLDER (dict_keys fs) in
  let tries := tried api_key fs pdf_files e in
  let processed_at :=
    strftime_timestamp
      (fst (datetime_now (ext_after (run PDF_FOLDER api_key fs e)))) in
  pdf_files <> [] ->
  export_column datetime_now (returned (click ss fs e)) e'
  = ({| ex_txt :=
          Some {| dl_label := "📄 Descargar TXT";
                  dl_data :=
                    report_header processed_at
                    +++ str_concat (map attempt_section tries);
                  dl_file_name :=
                    "bases_iva_"
                    +++ strftime_compact (fst (datetime_now e'))
                    +++ ".txt";
                  dl_mime := "text/plain" |};
        ex_xlsx :=
          Some {| dl_label := "📊 Descargar Excel";
                  dl_data :=
                    ("Resumen",
                     {| df_columns := summary_columns;
                        df_rows := map attempt_cells tries |});
                  dl_file_name :=
                    "bases_iva_"
                    +++ strftime_compact
                          (fst (datetime_now (snd (datetime_now e'))))
                    +++ ".xlsx";
                  dl_mime :=
                    "application/vnd.openxmlformats-officedocument.spreadsheetml.sheet" |};
        ex_raised := false |},
     snd (datetime_now (snd (datetime_now e'))))
  /\ length (map attempt_cells tries) = length pdf_files.
Proof.
  intros ND K. cbv zeta. intros NE.
  split; [|rewrite length_map; apply attempts_length].
  pose proof (process_all_invoices_some Ext messages_create datetime_now
                PDF_FOLDER api_key fs e ND NE) as R.
  rewrite (on_process_click_run Ext messages_create datetime_now
             ss api_key fs e _ K NE R).
  unfold returned at 1. cbn [fst].
  set (tries := tried api_key fs (glob_pdf PDF_FOLDER (dict_keys fs)) e).
  assert (NEt : map entry_of tries <> []).
  { intros E. apply NE. apply (f_equal (@length _)) in E.
    rewrite length_map in E. subst tries. rewrite attempts_length in E.
    now destruct (glob_pdf PDF_FOLDER (dict_keys fs)). }
  unfold export_column. cbn [ss_results ss_processed_at]. unfold opt_bind.
  rewrite combined_text_sections by apply entries_have_status_data.
  rewrite (create_summary_table_frame _ (entries_have_fields tries) NEt).
  unfold dict_items. rewrite !map_map.
  rewrite (map_ext _ _ section_of_entry).
  rewrite (map_ext _ _ summary_cells_entry).
  destruct (datetime_now e') as [now1 e1]. cbn [fst snd].
  now destruct (datetime_now e1) as [now2 e2].
Qed.

(** X13.  The uploaded file stays in the folder: with a plain name that
    ends in [.pdf], the files a later batch run lists are those listed
    before and the uploaded one, no other; a file already there under that
    name is listed once, as before, and holds the uploaded bytes; every
    other file keeps its bytes.  The paths on disk stay distinct. *)
Theorem upload_joins_the_folder
    (api_key file_name : string) (buffer : list byte) (fs : FS) (e : Ext) :
  contains "/" file_name = false ->
  endswith ".pdf" file_name = true ->
  NoDup (dict_keys fs) ->
  let saved_path := PDF_FOLDER +++ "/" +++ file_name in
  let fs' := up_fs (upload api_key file_name buffer fs e) in
  NoDup (dict_keys fs')
  /\ (forall f,
        In f (glob_pdf PDF_FOLDER (dict_keys fs'))
        <-> In f (glob_pdf PDF_FOLDER (dict_keys fs))
            \/ f = path_div PDF_FOLDER file_name)
  /\ length (glob_pdf PDF_FOLDER (dict_keys fs'))
     = (if dict_mem saved_path fs
        then length (glob_pdf PDF_FOLDER (dict_keys fs))
        else S (length (glob_pdf PDF_FOLDER (dict_keys fs))))
  /\ file_content fs' saved_path = buffer
  /\ (forall p, p <> saved_path -> file_content fs' p = file_content fs p).
Proof.
  intros Plain Pdf ND. cbv zeta. rewrite on_upload_click_fs.
  split; [now apply dict_set_NoDup|].
  pose proof (dict_keys_set (PDF_FOLDER +++ "/" +++ file_name) buffer fs)
    as Keys.
  assert (G : glob_pdf PDF_FOLDER
                (dict_keys
                   (dict_set (PDF_FOLDER +++ "/" +++ file_name) buffer fs))
              = if dict_mem (PDF_FOLDER +++ "/" +++ file_name) fs
                then glob_pdf PDF_FOLDER (dict_keys fs)
                else glob_pdf PDF_FOLDER (dict_keys fs)
                     ++ [path_div PDF_FOLDER file_name]).
  { rewrite Keys.
    destruct (dict_mem (PDF_FOLDER +++ "/" +++ file_name) fs);
      [reflexivity|].
    now rewrite glob_pdf_app, (glob_pdf_single _ _ Plain Pdf). }
  rewrite G. split; [|split; [|split]].
  - intros f.
    destruct (dict_mem (PDF_FOLDER +++ "/" +++ file_name) fs) eqn:M.
    + split; [now left|]. intros [I| ->]; [exact I|].
      apply glob_pdf_finds; [|exact Plain | exact Pdf].
      destruct (in_dec string_dec (PDF_FOLDER +++ "/" +++ file_name)
                  (dict_keys fs)) as [I|N]; [exact I|].
      apply dict_mem_keys in N. congruence.
    + rewrite in_app_iff. cbn [In]. split.
      * intros [I|[<-|[]]]; [now left | now right].
      * intros [I| ->]; [now left | right; now left].
  - destruct (dict_mem (PDF_FOLDER +++ "/" +++ file_name) fs);
      [reflexivity|].
    rewrite length_app. cbn. lia.
  - unfold file_content. now rewrite dict_get_set_same.
  - intros p N. unfold file_content. now rewrite dict_get_set_other.
Qed.


(** X15.  Without a key in the field the button "Procesar todas las
    facturas" does nothing: no request, no clock read, the stored results
    stay, and the session key is cleared.  With a key, every request of the
    run carries the key that was typed, and the clock is read once more
    after the last file. *)
Theorem process_button_needs_a_key
    (api_key_input : string) (ss : session_state) (fs : FS) (e : Ext)
    (journal : list ext_event) :
  let pdf_files := glob_pdf PDF_FOLDER (dict_keys fs) in
  let pressed :=
    press_process_button (logged_create messages_create)
      (logged_now datetime_now) api_key_input ss fs (e, journal) in
  (api_key_input = "" ->
   pressed
   = ({| ss_api_key := None;
         ss_results := ss_results ss;
         ss_processed_at := ss_processed_at ss |}, [], (e, journal)))
  /\ (api_key_input <> "" ->
      snd (ext_after pressed)
      = journal
        ++ match pdf_files with
           | [] => []
           | _ :: _ =>
               flat_map
                 (fun f =>
                    [Requested api_key_input
                       (document_request
                          (standard_b64encode
                             (file_content fs (path_str f))));
                     ClockRead])
                 pdf_files
               ++ [ClockRead]
           end).
Proof.
  cbv zeta. unfold press_process_button, sidebar_api_key, has_api_key.
  split.
  - intros ->. reflexivity.
  - intros N. apply String.eqb_neq in N. rewrite N. cbn [ss_api_key].
    rewrite N. cbn [negb].
    unfold on_process_click. cbn [ss_api_key].
    pose proof (process_all_invoices_logged Ext messages_create datetime_now
                  PDF_FOLDER api_key_input fs e journal) as L.
    pose proof (process_all_invoices_returns PDF_FOLDER api_key_input fs e)
      as S.
    destruct (glob_pdf PDF_FOLDER (dict_keys fs)) as [|f rest] eqn:G.
    + cbn. now rewrite app_nil_r.
    + destruct (S ltac:(discriminate)) as [results R].
      rewrite L, R. unfold logged_now. cbn [fst snd].
      destruct (datetime_now (ext_after (run PDF_FOLDER api_key_input fs e)))
        as [now e2].
      unfold ext_after. cbn [fst snd]. now rewrite <- app_assoc.
Qed.

(** X16.  The text [pdf_to_base64] returns for a file of n bytes has
    4 * ceil(n / 3) characters; a missing file raises the error of [open]
    that names the path. *)
Theorem pdf_to_base64_length (fs : FS) (pdf_path : string) :
  match dict_get pdf_path fs with
  | Some content =>
      exists pdf_data,
        pdf_to_base64 fs pdf_path = Returned pdf_data
        /\ String.length pdf_data = 4 * ((length content + 2) / 3)
  | None => pdf_to_base64 fs pdf_path = Raised (no_such_file pdf_path)
  end.
Proof.
  unfold pdf_to_base64.
  destruct (dict_get pdf_path fs) as [content|]; [|reflexivity].
  eexists. split; [reflexivity | apply standard_b64encode_length].
Qed.
End UploadFacts.

(** ** The further properties at work *)

Lemma answering_create_always_answers (req : request) (e0 : script) :
  exists block rest e1,
    answering_create "sk-test" req e0 = (ApiMessage (block :: rest), e1).
Proof. now eexists _, _, _. Qed.

Lemma pdf_folder_not_empty :
  glob_pdf PDF_FOLDER (dict_keys sample_fs) <> [].
Proof. vm_compute. discriminate. Qed.

Lemma always_answering_service_all_success_witness :
  exists results,
    returned (process_all_invoices answering_create scripted_now
                "facturas" "sk-test" sample_fs offline_world) = Some results
    /\ dict_len results = 3
    /\ Forall (fun kv => dict_get "status" (snd kv) = Some "success") results.
Proof.
  destruct (always_answering_service_all_success script answering_create
              scripted_now "facturas" "sk-test" sample_fs offline_world
              sample_fs_NoDup answering_create_always_answers
              sample_folder_not_empty)
    as [results [R [L [S _]]]].
  exists results. split; [exact R|]. split; [exact L | exact S].
Defined.

(** In the sample run one extraction returned and two raised. *)
Lemma counters_match_attempts_witness :
  exists results,
    returned sample_run = Some results
    /\ success_count results = Some 1
    /\ error_count results = Some 2.
Proof.
  destruct (counters_match_attempts script scripted_create scripted_now
              "facturas" "sk-test" sample_fs mixed_world
              sample_fs_NoDup sample_folder_not_empty)
    as [results [R [S [E _]]]].
  exists results. split; [exact R|]. split; [exact S | exact E].
Defined.

(** The session held an earlier result set; the click puts the new one and
    its time in its place. *)
Lemma click_replaces_the_result_set_witness :
  exists results,
    returned sample_run = Some results
    /\ dict_keys results = ["A.pdf"; "B.pdf"; "C.pdf"]
    /\ returned (on_process_click scripted_create scripted_now
                   sample_session sample_fs mixed_world)
       = {| ss_api_key := Some "sk-test";
            ss_results := Some results;
            ss_processed_at := Some "2025-03-14 09:26:01" |}.
Proof.
  destruct (click_replaces_the_result_set script scripted_create
              scripted_now sample_session "sk-test" sample_fs mixed_world
              sample_fs_NoDup eq_refl pdf_folder_not_empty)
    as [results [R [K [S _]]]].
  exists results. split; [exact R|]. split; [exact K | exact S].
Defined.

Lemma click_reports_completion_witness :
  filter is_error_event
    (emitted (on_process_click refusing_create scripted_now
                sample_session sample_fs offline_world)) = []
  /\ last (emitted (on_process_click refusing_create scripted_now
                      sample_session sample_fs offline_world))
       StatusClear
     = StSuccess "✅ Procesamiento completado: 3 facturas".
Proof.
  destruct (click_reports_completion script refusing_create scripted_now
              sample_session "sk-test" sample_fs offline_world
              sample_fs_NoDup eq_refl pdf_folder_not_empty)
    as [Ev NoErr].
  split; [exact NoErr|]. rewrite Ev. apply last_last.
Defined.

Lemma exports_show_the_attempts_witness :
  exists results,
    returned sample_run = Some results
    /\ create_summary_table results
       = Some {| df_columns := summary_columns;
                 df_rows :=
                   [[Some "A.pdf"; Some "success";
                     Some "2025-03-14 09:26:58";
                     Some "IVA 19% ... TOTAL ..."];
                    [Some "B.pdf"; Some "error";
                     Some "2025-03-14 09:26:59"; Some "Error: timeout"];
                    [Some "C.pdf"; Some "error";
                     Some "2025-03-14 09:26:00";
                     Some "Error: list index out of range"]] |}.
Proof.
  destruct (exports_show_the_attempts script scripted_create scripted_now
              "facturas" "sk-test" sample_fs mixed_world
              "2025-03-14 09:27:01" sample_fs_NoDup sample_folder_not_empty)
    as [results [R [_ T]]].
  exists results. split; [exact R | exact T].
Defined.


Lemma exports_after_a_click_witness :
  ex_raised
    (fst (export_column scripted_now
            (returned (on_process_click scripted_create scripted_now
                         sample_session sample_fs mixed_world))
            offline_world)) = false
  /\ option_map dl_file_name
       (ex_xlsx
          (fst (export_column scripted_now
                  (returned (on_process_click scripted_create scripted_now
                               sample_session sample_fs mixed_world))
                  offline_world)))
     = Some "bases_iva_20250314_092601.xlsx".
Proof.
  destruct (exports_after_a_click script scripted_create scripted_now
              sample_session "sk-test" sample_fs mixed_world offline_world
              sample_fs_NoDup eq_refl pdf_folder_not_empty)
    as [E _].
  rewrite E. split; reflexivity.
Defined.

(** A new invoice makes four; an upload named like B.pdf leaves three. *)
Lemma upload_joins_the_folder_witness :
  length
    (glob_pdf PDF_FOLDER
       (dict_keys
          (up_fs (on_upload_click scripted_create "sk-test" "D.pdf"
                    (list_byte_of_string "%PDF-D") sample_fs mixed_world))))
  = 4
  /\ length
       (glob_pdf PDF_FOLDER
          (dict_keys
             (up_fs (on_upload_click scripted_create "sk-test" "B.pdf"
                       (list_byte_of_string "%PDF-B2") sample_fs
                       mixed_world))))
     = 3
  /\ file_content
       (up_fs (on_upload_click scripted_create "sk-test" "B.pdf"
                 (list_byte_of_string "%PDF-B2") sample_fs mixed_world))
       "facturas/B.pdf"
     = list_byte_of_string "%PDF-B2".
Proof.
  destruct (upload_joins_the_folder script scripted_create "sk-test" "D.pdf"
              (list_byte_of_string "%PDF-D") sample_fs mixed_world
              eq_refl eq_refl sample_fs_NoDup) as [_ [_ [New _]]].
  destruct (upload_joins_the_folder script scripted_create "sk-test" "B.pdf"
              (list_byte_of_string "%PDF-B2") sample_fs mixed_world
              eq_refl eq_refl sample_fs_NoDup) as [_ [_ [Old [Bytes _]]]].
  split; [exact New|]. split; [exact Old | exact Bytes].
Defined.


(** Tab labels count characters, not bytes: a name of 30 characters with
    two accents is shown whole, one of 31 is cut after the 30th. *)
Lemma tab_label_counts_characters :
  tab_label_of "Facturación_electrónica_01.pdf"
  = "📄 Facturación_electrónica_01.pdf"
  /\ tab_label_of "Facturación_electrónica_001.pdf"
     = "📄 Facturación_electrónica_001.pd...".
Proof. split; reflexivity. Qed.

(** The journal of the sample run, and of a press without a key. *)
Lemma batch_sends_one_request_per_file_witness :
  map (fun ev => match ev with
                 | Requested api_key req => Some (req_document_data req)
                 | ClockRead => None
                 end)
    (snd (ext_after
            (process_all_invoices (logged_create scripted_create)
               (logged_now scripted_now) "facturas" "sk-test" sample_fs
               (mixed_world, []))))
  = [Some "JVBERi1B"; None; Some "JVBERi1C"; None; Some "JVBERi1D"; None].
Proof.
  rewrite (proj2 (proj2 (proj2
             (batch_sends_one_request_per_file script scripted_create
                scripted_now "facturas" "sk-test" sample_fs mixed_world
                [])))).
  reflexivity.
Defined.

Lemma process_button_needs_a_key_witness :
  press_process_button (logged_create scripted_create)
    (logged_now scripted_now) "" sample_session sample_fs (mixed_world, [])
  = (later_session, [], (mixed_world, []))
  /\ length
       (snd (ext_after
               (press_process_button (logged_create scripted_create)
                  (logged_now scripted_now) "sk-live" later_session
                  sample_fs (mixed_world, [])))) = 7.
Proof.
  split.
  - exact (proj1 (process_button_needs_a_key script scripted_create
                    scripted_now "" sample_session sample_fs mixed_world [])
             eq_refl).
  - rewrite (proj2 (process_button_needs_a_key script scripted_create
                      scripted_now "sk-live" later_session sample_fs
                      mixed_world []));
      [reflexivity | discriminate].
Defined.
